(** * jira-design-doc: the document assembler of [design_doc_logic.py]

    A shallow embedding of [extract_json_from_text], [generate_all_sections]
    and [generate_design_doc_bytes], and the properties of the assembled
    document.

    Conventions.
    - A Python [str] is a [string]; a character is an 8-bit code point.
    - A Python [int] is a [Z].
    - The [dict] returned by [json.loads] is a [gmap string string].
    - The python-docx document is the list of the blocks appended to its
      body, in order; every [doc.add_*] call appends one block.
    - What the code reads from outside (the clock, the model's reply, the
      rendered diagram) is a field of an explicit [World]. *)

From Stdlib Require Import ZArith NArith QArith.QArith_base Ascii String List Bool Lia.
From stdpp Require Import gmap strings list.

Local Open Scope Z_scope.

(* ===================================================================== *)
(** ** The Python [str] methods the program calls *)
(* ===================================================================== *)

Module Py.

(** ["\n"] *)
Definition NL : ascii := "010"%char.

(** ["\n\n"] *)
Definition NLNL : string := String NL (String NL "").

(** [not s] on a [str]: only the empty string is falsy. *)
Definition falsy (s : string) : bool :=
  match s with
  | "" => true
  | String _ _ => false
  end.

(** [c.isspace()] for a code point below 256: TAB..CR, FS..US, space,
    NEL (0x85) and NBSP (0xA0). *)
Definition isspace (c : ascii) : bool :=
  let n := N_of_ascii c in
  (((9 <=? n) && (n <=? 13)) || ((28 <=? n) && (n <=? 32))
   || (n =? 133) || (n =? 160))%N.

(** [s.count(c)] for a one-character [c]. *)
Fixpoint count (c : ascii) (s : string) : Z :=
  match s with
  | "" => 0
  | String a s' => (if Ascii.eqb a c then 1 else 0) + count c s'
  end.

(** [s.find(c)] for a one-character [c]: lowest index, or -1. *)
Fixpoint find_from (c : ascii) (s : string) (i : Z) : Z :=
  match s with
  | "" => -1
  | String a s' => if Ascii.eqb a c then i else find_from c s' (i + 1)
  end.

Definition find (c : ascii) (s : string) : Z := find_from c s 0.

(** [s.rfind(c)] for a one-character [c]: highest index, or -1. *)
Fixpoint rfind_from (c : ascii) (s : string) (i : Z) : Z :=
  match s with
  | "" => -1
  | String a s' =>
      let r := rfind_from c s' (i + 1) in
      if r =? -1 then (if Ascii.eqb a c then i else -1) else r
  end.

Definition rfind (c : ascii) (s : string) : Z := rfind_from c s 0.

(** [s[lo:hi]]: a negative bound counts from the end, and both bounds
    are clamped to the string. *)
Definition slice (s : string) (lo hi : Z) : string :=
  let n := Z.of_nat (String.length s) in
  let clamp i := if i <? 0 then Z.max (i + n) 0 else Z.min i n in
  String.substring (Z.to_nat (clamp lo)) (Z.to_nat (clamp hi - clamp lo)) s.

(** [s.lstrip()], [s.rstrip()] and [s.strip()]. *)
Fixpoint lstrip (s : string) : string :=
  match s with
  | "" => ""
  | String a s' => if isspace a then lstrip s' else s
  end.

Fixpoint rstrip (s : string) : string :=
  match s with
  | "" => ""
  | String a s' =>
      match rstrip s' with
      | "" => if isspace a then "" else String a ""
      | r => String a r
      end
  end.

Definition strip (s : string) : string := rstrip (lstrip s).

(** Put a character in front of the first chunk. *)
Definition cons_chunk (a : ascii) (l : list string) : list string :=
  match l with
  | [] => [String a ""]
  | h :: t => String a h :: t
  end.

(** [s.split(sep)] for a non-empty [sep]: scan left to right, cut at
    every occurrence of [sep] that starts outside the one before it.
    [skip] counts the characters of a matched separator still to pass. *)
Fixpoint split_go (sep : string) (skip : nat) (s : string) : list string :=
  match s with
  | "" => [""]
  | String a s' =>
      match skip with
      | S k => split_go sep k s'
      | O =>
          if String.prefix sep s
          then "" :: split_go sep (Nat.pred (String.length sep)) s'
          else cons_chunk a (split_go sep 0 s')
      end
  end.

Definition split (sep s : string) : list string := split_go sep 0 s.

(** [sep.join(l)]. *)
Fixpoint join (sep : string) (l : list string) : string :=
  match l with
  | [] => ""
  | [x] => x
  | x :: l' => x +:+ sep +:+ join sep l'
  end.

(** *** Predicates on strings used to state the properties *)

(** Whether a string starts with the boundary: it depends on the first
    two characters only. *)
Definition starts_nn (s : string) : bool :=
  match s with
  | String a (String b _) => Ascii.eqb a NL && Ascii.eqb b NL
  | _ => false
  end.

(** No blank-line boundary anywhere in the string. *)
Fixpoint no_nn (s : string) : bool :=
  match s with
  | "" => true
  | String a s' => negb (starts_nn s) && no_nn s'
  end.

(** Only whitespace. *)
Fixpoint all_space (s : string) : bool :=
  match s with
  | "" => true
  | String a s' => isspace a && all_space s'
  end.

(** A paragraph as the assembler emits it: non-empty, stripped on both
    sides, free of the boundary. *)
Definition clean (p : string) : Prop :=
  p <> "" /\ lstrip p = p /\ rstrip p = p /\ no_nn p = true.

(** [len(s)] *)
Definition len (s : string) : Z := Z.of_nat (String.length s).

(** *** Methods used by the request handler *)

(** [s.replace(old, new)] for a one-character [old]. *)
Fixpoint replace (old : ascii) (new : string) (s : string) : string :=
  match s with
  | "" => ""
  | String a s' =>
      if Ascii.eqb a old then new +:+ replace old new s'
      else String a (replace old new s')
  end.

(** [c.lower()] for a code point below 256: A..Z and the Latin-1
    capitals (0xC0..0xDE without the multiplication sign 0xD7) move up
    by 32. *)
Definition lower_char (c : ascii) : ascii :=
  let n := N_of_ascii c in
  if (((65 <=? n) && (n <=? 90))
      || ((192 <=? n) && (n <=? 222) && negb (n =? 215)))%N
  then ascii_of_N (n + 32)
  else c.

Fixpoint lower (s : string) : string :=
  match s with
  | "" => ""
  | String a s' => String (lower_char a) (lower s')
  end.

(** [s.endswith(suffix)] *)
Fixpoint endswith (s suffix : string) : bool :=
  String.eqb s suffix
  || match s with
     | "" => false
     | String _ s' => endswith s' suffix
     end.

(** [html.escape(s)] with [quote=True]: five replacements, the
    ampersand first. *)
Definition AMP : ascii := "038"%char.
Definition DQUOTE : ascii := "034"%char.
Definition SQUOTE : ascii := "039"%char.

Definition html_escape (s : string) : string :=
  let s := replace AMP "&amp;" s in
  let s := replace "<"%char "&lt;" s in
  let s := replace ">"%char "&gt;" s in
  let s := replace DQUOTE "&quot;" s in
  let s := replace SQUOTE "&#x27;" s in
  s.

(** What [html.escape] does to one character. *)
Definition escape_char (c : ascii) : string :=
  if Ascii.eqb c AMP then "&amp;"
  else if Ascii.eqb c "<"%char then "&lt;"
  else if Ascii.eqb c ">"%char then "&gt;"
  else if Ascii.eqb c DQUOTE then "&quot;"
  else if Ascii.eqb c SQUOTE then "&#x27;"
  else String c "".

(** The characters of a string that are not whitespace, in order. *)
Fixpoint without_space (s : string) : string :=
  match s with
  | "" => ""
  | String a s' => if isspace a then without_space s' else String a (without_space s')
  end.

(** All the strings of a list, one after the other. *)
Fixpoint concat (l : list string) : string :=
  match l with
  | [] => ""
  | x :: l' => x +:+ concat l'
  end.

End Py.

(* ===================================================================== *)
(** ** Errors *)
(* ===================================================================== *)

Inductive exn : Type :=
| ValueError (msg : string)
| JSONDecodeError
| APIError.

Inductive result (A : Type) : Type :=
| Ok (a : A)
| Raise (e : exn).

Arguments Ok {A} a.
Arguments Raise {A} e.

Definition bind {A B : Type} (m : result A) (k : A -> result B) : result B :=
  match m with
  | Ok a => k a
  | Raise e => Raise e
  end.

Notation "'try' x <- m 'in' k" := (bind m (fun x => k))
  (at level 10, x name, m at level 10, k at level 200).

(* ===================================================================== *)
(** ** extract_json_from_text *)
(* ===================================================================== *)

Definition extract_json_from_text (text : string) : string :=
  if Py.falsy text then ""
  else
    let start := Py.find "{"%char text in
    let end_ := Py.rfind "}"%char text in
    if (start =? -1) || (end_ =? -1) || (end_ <=? start) then ""
    else Py.slice text start (end_ + 1).

(* ===================================================================== *)
(** ** The section catalog *)
(* ===================================================================== *)

Definition SECTIONS : list string :=
  [ "1. Overview";
    "1.1 Audience";
    "1.2 Scope";
    "1.3 Shared Responsibility Matrix";
    "1.4 Software Development Life Cycle (SDLC)";
    "2. Solution Overview";
    "2.1 Business Requirements";
    "2.2 Solution Summary";
    "2.3 Architectural Diagram";
    "2.4 Solution Components";
    "2.5 Custom APIs & Connectors";
    "2.6 Data Storage & Dataverse";
    "2.7 Integrations";
    "2.8 Automation Scheduling";
    "2.9 Exception Handling in Power Automate Flows";
    "2.10 Data & Retention Policy";
    "3. Security";
    "3.1 Authentication & Authorization";
    "3.2 App Security";
    "3.3 Security in DevOps";
    "4. Deployment & DevOps";
    "5. Non-Functional Requirements";
    "6. Risks & Assumptions";
    "7. References & Appendix" ].

(** The title the loop compares against before it embeds the picture. *)
Definition DIAGRAM_SECTION : string := "2.3 Architectural Diagram".

(* ===================================================================== *)
(** ** The document under construction *)
(* ===================================================================== *)

(** One block of the document body. [add_heading] with level 0 is the
    document title; [add_picture] takes the image bytes and a width in
    EMU. *)
Inductive block : Type :=
| Heading (level : Z) (text : string)
| Paragraph (text : string)
| PageBreak
| Picture (image : list Byte.byte) (width : Z).

Definition Document : Type := list block.

(** [Document()]: the default template has an empty body. *)
Definition new_document : Document := [].

Definition add_heading (text : string) (level : Z) (doc : Document) : Document :=
  doc ++ [Heading level text].

Definition add_paragraph (text : string) (doc : Document) : Document :=
  doc ++ [Paragraph text].

Definition add_page_break (doc : Document) : Document :=
  doc ++ [PageBreak].

Definition add_picture (image : list Byte.byte) (width : Z) (doc : Document) : Document :=
  doc ++ [Picture image width].

(** [docx.shared.Inches(x)]: [int(x * 914400)] EMU. *)
Definition Inches (x : Q) : Z := Z.quot (914400 * Qnum x) (Zpos (Qden x)).

(** [heading_level = 1 if section_title.count(".") == 1 else 2] *)
Definition heading_level (section_title : string) : Z :=
  if Py.count "."%char section_title =? 1 then 1 else 2.

(** The inner loop: one paragraph per chunk that is non-empty once
    stripped. *)
Definition add_body_paragraph (doc : Document) (para : string) : Document :=
  if Py.falsy (Py.strip para) then doc else add_paragraph (Py.strip para) doc.

(** One turn of [for section_title in SECTIONS]. *)
Definition render_section (sections : gmap string string) (png_bytes : list Byte.byte)
    (doc : Document) (section_title : string) : Document :=
  let doc := add_heading section_title (heading_level section_title) doc in
  let doc :=
    if String.eqb section_title DIAGRAM_SECTION
    then add_paragraph ""
           (add_picture png_bytes (Inches (13 # 2))
              (add_paragraph "Diagram (auto-generated):" doc))
    else doc in
  let body := default "" (sections !! section_title) in
  if Py.falsy body then doc
  else fold_left add_body_paragraph (Py.split Py.NLNL body) doc.

(** Lines 172-199 of [generate_design_doc_bytes], with the catalog, the
    date string, the section dictionary and the diagram bytes as
    arguments. *)
Definition build_document (catalog : list string)
    (project_name version today prepared_by : string)
    (sections : gmap string string) (png_bytes : list Byte.byte) : Document :=
  let doc := new_document in
  let doc := add_heading "Solution Design Document" 0 doc in
  let doc := add_paragraph ("Project Name: " +:+ project_name) doc in
  let doc := add_paragraph ("Version: " +:+ version) doc in
  let doc := add_paragraph ("Date: " +:+ today) doc in
  let doc := add_paragraph ("Prepared By: " +:+ prepared_by) doc in
  let doc := add_page_break doc in
  fold_left (render_section sections png_bytes) catalog doc.

(* ===================================================================== *)
(** ** The outside world and the two entry points *)
(* ===================================================================== *)

(** What a call reads from outside its arguments. [responses_create] is
    the text of the model's reply ([response.output[0].content[0].text])
    to the prompt built from the Jira text; the call can fail. *)
Record World : Type := {
  date_today_isoformat : string;
  responses_create : string -> result string;
  create_architecture_diagram_png : list Byte.byte
}.

Section Program.

(** [json.loads], restricted to objects whose values are strings. *)
Variable json_loads : string -> result (gmap string string).

Definition generate_all_sections (w : World) (jira_text : string)
    : result (gmap string string) :=
  try raw_text <- responses_create w jira_text in
  let json_str := extract_json_from_text raw_text in
  if Py.falsy json_str
  then Raise (ValueError
         "Model did not return valid JSON. Try reducing input text or try again.")
  else json_loads json_str.

Definition generate_design_doc_bytes (w : World)
    (jira_text project_name version prepared_by : string) : result Document :=
  try sections <- generate_all_sections w jira_text in
  Ok (build_document SECTIONS project_name version (date_today_isoformat w)
        prepared_by sections (create_architecture_diagram_png w)).

End Program.

(* ===================================================================== *)
(** ** Reading a document back *)
(* ===================================================================== *)

(** The headings of a document, in order, as (level, text). *)
Fixpoint headings (doc : Document) : list (Z * string) :=
  match doc with
  | [] => []
  | Heading level text :: doc' => (level, text) :: headings doc'
  | _ :: doc' => headings doc'
  end.

Fixpoint count_pictures (doc : Document) : nat :=
  match doc with
  | [] => O
  | Picture _ _ :: doc' => S (count_pictures doc')
  | _ :: doc' => count_pictures doc'
  end.

Fixpoint count_page_breaks (doc : Document) : nat :=
  match doc with
  | [] => O
  | PageBreak :: doc' => S (count_page_breaks doc')
  | _ :: doc' => count_page_breaks doc'
  end.

(* ===================================================================== *)
(** ** The sections as values *)
(* ===================================================================== *)

(** The paragraphs of a body in the words of the specification: split on
    the blank-line boundary, trim every chunk, drop the chunks that are
    empty after trimming, keep the order. *)
Definition spec_paragraphs (body : string) : list string :=
  List.filter (fun chunk => negb (Py.falsy chunk))
    (map Py.strip (Py.split Py.NLNL body)).

(** The body paragraphs of one catalog title: nothing for a missing or
    empty entry. *)
Definition section_body (sections : gmap string string) (section_title : string)
    : list string :=
  let body := default "" (sections !! section_title) in
  if Py.falsy body then [] else spec_paragraphs body.

(** The caption, the picture and the spacing paragraph of the diagram
    section; nothing for any other title. *)
Definition diagram_blocks (png_bytes : list Byte.byte) (section_title : string)
    : list block :=
  if String.eqb section_title DIAGRAM_SECTION
  then [Paragraph "Diagram (auto-generated):"; Picture png_bytes 5943600; Paragraph ""]
  else [].

Definition section_blocks (sections : gmap string string) (png_bytes : list Byte.byte)
    (section_title : string) : list block :=
  Heading (heading_level section_title) section_title
    :: diagram_blocks png_bytes section_title
    ++ map Paragraph (section_body sections section_title).

(** The title block and the page break. *)
Definition title_block (project_name version today prepared_by : string) : list block :=
  [ Heading 0 "Solution Design Document";
    Paragraph ("Project Name: " +:+ project_name);
    Paragraph ("Version: " +:+ version);
    Paragraph ("Date: " +:+ today);
    Paragraph ("Prepared By: " +:+ prepared_by) ].

(** Lines 193-199 run on a fresh document: the paragraphs one body adds. *)
Definition body_paragraphs (body : string) : Document :=
  if Py.falsy body then []
  else fold_left add_body_paragraph (Py.split Py.NLNL body) [].

(** The texts of the paragraphs of a document, in order. *)
Fixpoint paragraph_texts (doc : Document) : list string :=
  match doc with
  | [] => []
  | Paragraph text :: doc' => text :: paragraph_texts doc'
  | _ :: doc' => paragraph_texts doc'
  end.

(* ===================================================================== *)
(** ** generate_section_text *)
(* ===================================================================== *)

(** [generate_section_text]: one model call for one section; the reply
    is stripped. [section_reply] is the text of the model's reply to the
    prompt built from the Jira text and the section title. *)
Definition generate_section_text (section_reply : string -> string -> result string)
    (jira_text section_title : string) : result string :=
  try text <- section_reply jira_text section_title in
  Ok (Py.strip text).

(* ===================================================================== *)
(** ** The request handler of [main.py] *)
(* ===================================================================== *)

(** The uploaded file: its name and its bytes. *)
Record UploadFile : Type := {
  filename : string;
  file_bytes : list Byte.byte
}.

(** A raised exception as the handler sees it: whether [except
    ValueError] catches it, and [str(e)]. *)
Record PyException : Type := {
  is_value_error : bool;
  message : string
}.

(** The page of [render_form_page]: the fixed template with its holes.
    [error_html] is [None] for the empty string and [Some m] for the
    alert block around the escaped message [m]. *)
Record HTMLResponse : Type := {
  error_html : option string;
  text_checked : string;
  file_checked : string;
  text_display : string;
  file_display : string;
  jira_text_value : string;
  project_name_value : string;
  version_value : string;
  prepared_by_value : string
}.

Inductive Response : Type :=
| StreamingResponse (body : Document) (media_type : string) (content_disposition : string)
| HTMLPage (page : HTMLResponse).

Definition render_form_page (jira_text project_name version prepared_by input_mode : string)
    (error_message : option string) : HTMLResponse :=
  {| error_html :=
       match error_message with
       | None => None
       | Some m => if Py.falsy m then None else Some (Py.html_escape m)
       end;
     text_checked := if String.eqb input_mode "text" then "checked" else "";
     file_checked := if String.eqb input_mode "file" then "checked" else "";
     text_display := if String.eqb input_mode "text" then "flex" else "none";
     file_display := if String.eqb input_mode "file" then "flex" else "none";
     jira_text_value := Py.html_escape jira_text;
     project_name_value := Py.html_escape project_name;
     version_value := Py.html_escape version;
     prepared_by_value := Py.html_escape prepared_by |}.

(** [form_page]: the initial form, all defaults. *)
Definition form_page : HTMLResponse := render_form_page "" "" "1.0" "" "text" None.

(** [raise ValueError(msg)] *)
Definition value_error (msg : string) : PyException :=
  {| is_value_error := true; message := msg |}.

Definition DOCX_MEDIA_TYPE : string :=
  "application/vnd.openxmlformats-officedocument.wordprocessingml.document".

Section Handler.

Variable json_loads : string -> result (gmap string string).

(** [str(e)] for the exceptions whose text a library decides. *)
Variable exn_text : exn -> string.

(** [file_bytes.decode("utf-8", errors="ignore")] *)
Variable decode_utf8_ignore : list Byte.byte -> string.

(** The texts of the paragraphs of an uploaded .docx, or the exception
    python-docx raises on it. *)
Variable docx_paragraphs : list Byte.byte -> list string + PyException.

(** An exception of the generator as the handler catches it;
    [json.JSONDecodeError] is a subclass of [ValueError]. *)
Definition as_exception (e : exn) : PyException :=
  match e with
  | ValueError msg => value_error msg
  | JSONDecodeError => {| is_value_error := true; message := exn_text e |}
  | APIError => {| is_value_error := false; message := exn_text e |}
  end.

(** Lines 365-384: where the Jira stories come from. *)
Definition read_jira_stories (jira_text input_mode : string)
    (upload_file : option UploadFile) : string + PyException :=
  if String.eqb input_mode "file" then
    match upload_file with
    | None =>
        inr (value_error
               "Please upload a .txt or .docx file when 'Attachment' is selected.")
    | Some f =>
        if String.eqb (filename f) "" then
          inr (value_error
                 "Please upload a .txt or .docx file when 'Attachment' is selected.")
        else
          let name := Py.lower (filename f) in
          if Py.endswith name ".txt" then inl (decode_utf8_ignore (file_bytes f))
          else if Py.endswith name ".docx" then
            match docx_paragraphs (file_bytes f) with
            | inl texts => inl (Py.join (String Py.NL "") texts)
            | inr e => inr e
            end
          else inr (value_error "Only .txt and .docx files are supported.")
    end
  else
    let raw_text := Py.strip jira_text in
    if Py.falsy raw_text then
      inr (value_error "Please enter Jira stories when 'Text area' is selected.")
    else inl raw_text.

(** The two [except] branches, with the local variables as they are
    when the exception arrives. *)
Definition error_page (jira_text project_name version prepared_by input_mode : string)
    (e : PyException) : Response :=
  HTMLPage
    (render_form_page jira_text project_name version prepared_by input_mode
       (Some (if is_value_error e then message e
              else "Something went wrong while generating the design document. "
                   +:+ "Details: " +:+ message e))).

Definition generate_design_doc (w : World)
    (jira_text project_name version prepared_by input_mode : string)
    (upload_file : option UploadFile) : Response :=
  match read_jira_stories jira_text input_mode upload_file with
  | inr e => error_page jira_text project_name version prepared_by input_mode e
  | inl raw_text =>
      let project_name :=
        if Py.falsy (Py.strip project_name) then "PROJECT" else project_name in
      let prepared_by :=
        if Py.falsy (Py.strip prepared_by) then "Automation Factory" else prepared_by in
      match generate_design_doc_bytes json_loads w raw_text project_name
              (if Py.falsy version then "1.0" else version) prepared_by with
      | Raise e =>
          error_page jira_text project_name version prepared_by input_mode
            (as_exception e)
      | Ok doc_bytes =>
          let download_name :=
            Py.replace " "%char "_" project_name +:+ "_design.docx" in
          StreamingResponse doc_bytes DOCX_MEDIA_TYPE
            ("attachment; filename=" +:+ String Py.DQUOTE download_name
               +:+ String Py.DQUOTE "")
      end
  end.

End Handler.

(* ===================================================================== *)
(** ** Concrete inputs *)
(* ===================================================================== *)

Module Scenario.

(** Scenario A of the specification. *)
Definition catalog_A : list string := ["1. Overview"; "1.1 Audience"].

Definition content_A : gmap string string :=
  <["1. Overview" := "Intro para." +:+ Py.NLNL +:+ "Second para."]>
    (<["1.1 Audience" := ""]> ∅).

(** A reply that parses to the empty object. *)
Definition loads_empty (json_str : string) : result (gmap string string) := Ok ∅.

(** The same service on two consecutive days. *)
Definition monday : World :=
  {| date_today_isoformat := "2024-01-01";
     responses_create := fun _ => Ok "{}";
     create_architecture_diagram_png := [] |}.

Definition tuesday : World :=
  {| date_today_isoformat := "2024-01-02";
     responses_create := fun _ => Ok "{}";
     create_architecture_diagram_png := [] |}.

(** A service whose model answers in prose, without any brace. *)
Definition chatty : World :=
  {| date_today_isoformat := "2024-01-01";
     responses_create := fun _ => Ok "Sorry, I cannot help with that.";
     create_architecture_diagram_png := [] |}.

(** A model that cannot be reached. *)
Definition offline : World :=
  {| date_today_isoformat := "2024-01-01";
     responses_create := fun _ => Raise APIError;
     create_architecture_diagram_png := [] |}.

(** The library-side functions of the handler, fixed for the examples. *)
Definition exn_text (e : exn) : string :=
  match e with
  | ValueError msg => msg
  | JSONDecodeError => "Expecting value"
  | APIError => "Connection error."
  end.

Definition decode_ascii (bytes : list Byte.byte) : string :=
  string_of_list_byte bytes.

Definition no_docx (bytes : list Byte.byte) : list string + PyException :=
  inr {| is_value_error := false; message := "File is not a zip file" |}.

Definition notes_upload : UploadFile :=
  {| filename := "Notes.TXT"; file_bytes := [] |}.

Definition section_reply (jira_text section_title : string) : result string :=
  Ok ("  Scope of " +:+ section_title +:+ String Py.NL "").

End Scenario.

(* ===================================================================== *)
(** ** The loops, unfolded *)
(* ===================================================================== *)

Lemma headings_app (d1 d2 : Document) :
  headings (d1 ++ d2) = headings d1 ++ headings d2.
Proof.
  induction d1 as [|b d1 IH]; simpl; [reflexivity|].
  destruct b; simpl; rewrite IH; reflexivity.
Qed.

Lemma count_pictures_app (d1 d2 : Document) :
  count_pictures (d1 ++ d2) = (count_pictures d1 + count_pictures d2)%nat.
Proof.
  induction d1 as [|b d1 IH]; simpl; [reflexivity|].
  destruct b; simpl; rewrite IH; reflexivity.
Qed.

Lemma count_page_breaks_app (d1 d2 : Document) :
  count_page_breaks (d1 ++ d2) = (count_page_breaks d1 + count_page_breaks d2)%nat.
Proof.
  induction d1 as [|b d1 IH]; simpl; [reflexivity|].
  destruct b; simpl; rewrite IH; reflexivity.
Qed.

Lemma headings_paragraphs (l : list string) : headings (map Paragraph l) = [].
Proof. induction l; simpl; auto. Qed.

Lemma count_pictures_paragraphs (l : list string) :
  count_pictures (map Paragraph l) = O.
Proof. induction l; simpl; auto. Qed.

Lemma count_page_breaks_paragraphs (l : list string) :
  count_page_breaks (map Paragraph l) = O.
Proof. induction l; simpl; auto. Qed.

(** The inner loop appends one paragraph per kept chunk. *)
Lemma body_loop_eq (chunks : list string) (doc : Document) :
  fold_left add_body_paragraph chunks doc
  = doc ++ map Paragraph
             (List.filter (fun chunk => negb (Py.falsy chunk)) (map Py.strip chunks)).
Proof.
  revert doc. induction chunks as [|c chunks IH]; intros doc; simpl.
  - rewrite app_nil_r. reflexivity.
  - rewrite IH. unfold add_body_paragraph, add_paragraph.
    destruct (Py.falsy (Py.strip c)); simpl.
    + reflexivity.
    + rewrite <- app_assoc. reflexivity.
Qed.

(** One turn of the outer loop appends the blocks of its section. *)
Lemma render_section_eq sections png_bytes doc section_title :
  render_section sections png_bytes doc section_title
  = doc ++ section_blocks sections png_bytes section_title.
Proof.
  unfold render_section, section_blocks, section_body, diagram_blocks,
    spec_paragraphs, add_heading, add_paragraph, add_picture.
  destruct (String.eqb section_title DIAGRAM_SECTION);
    destruct (Py.falsy (default "" (sections !! section_title)));
    rewrite ?body_loop_eq; simpl; rewrite <- ?app_assoc; simpl;
    rewrite ?app_nil_r; reflexivity.
Qed.

Lemma render_sections_eq sections png_bytes catalog doc :
  fold_left (render_section sections png_bytes) catalog doc
  = doc ++ flat_map (section_blocks sections png_bytes) catalog.
Proof.
  revert doc. induction catalog as [|t catalog IH]; intros doc; simpl.
  - rewrite app_nil_r. reflexivity.
  - rewrite IH, render_section_eq, <- app_assoc. reflexivity.
Qed.

Lemma build_document_eq catalog project_name version today prepared_by sections png_bytes :
  build_document catalog project_name version today prepared_by sections png_bytes
  = title_block project_name version today prepared_by
      ++ [PageBreak]
      ++ flat_map (section_blocks sections png_bytes) catalog.
Proof.
  unfold build_document. rewrite render_sections_eq. reflexivity.
Qed.

Lemma headings_section_blocks sections png_bytes t :
  headings (section_blocks sections png_bytes t) = [(heading_level t, t)].
Proof.
  unfold section_blocks, diagram_blocks. simpl.
  destruct (String.eqb t DIAGRAM_SECTION); simpl;
    rewrite headings_paragraphs; reflexivity.
Qed.

Lemma count_page_breaks_section_blocks sections png_bytes t :
  count_page_breaks (section_blocks sections png_bytes t) = O.
Proof.
  unfold section_blocks, diagram_blocks. simpl.
  destruct (String.eqb t DIAGRAM_SECTION); simpl;
    rewrite count_page_breaks_paragraphs; reflexivity.
Qed.

Lemma count_pictures_section_blocks sections png_bytes t :
  count_pictures (section_blocks sections png_bytes t)
  = if String.eqb t DIAGRAM_SECTION then 1%nat else O.
Proof.
  unfold section_blocks, diagram_blocks. simpl.
  destruct (String.eqb t DIAGRAM_SECTION); simpl;
    rewrite count_pictures_paragraphs; reflexivity.
Qed.

Lemma headings_sections sections png_bytes catalog :
  headings (flat_map (section_blocks sections png_bytes) catalog)
  = map (fun t => (heading_level t, t)) catalog.
Proof.
  induction catalog as [|t catalog IH]; simpl; [reflexivity|].
  change (headings (section_blocks sections png_bytes t
                      ++ flat_map (section_blocks sections png_bytes) catalog)
          = (heading_level t, t) :: map (fun t => (heading_level t, t)) catalog).
  rewrite headings_app, headings_section_blocks, IH. reflexivity.
Qed.

Lemma count_page_breaks_sections sections png_bytes catalog :
  count_page_breaks (flat_map (section_blocks sections png_bytes) catalog) = O.
Proof.
  induction catalog as [|t catalog IH]; simpl; [reflexivity|].
  change (count_page_breaks (section_blocks sections png_bytes t
            ++ flat_map (section_blocks sections png_bytes) catalog) = O).
  rewrite count_page_breaks_app, count_page_breaks_section_blocks, IH. reflexivity.
Qed.

(* ===================================================================== *)
(** ** Facts about [split] at the blank-line boundary *)
(* ===================================================================== *)

Module PyFacts.
Import Py.

Lemma sapp_nil_l (s : string) : "" +:+ s = s.
Proof. reflexivity. Qed.

Lemma sapp_cons (a : ascii) (s t : string) : String a s +:+ t = String a (s +:+ t).
Proof. reflexivity. Qed.

Lemma sapp_nil_r (s : string) : s +:+ "" = s.
Proof. induction s as [|a s IH]; [reflexivity|]. rewrite sapp_cons, IH. reflexivity. Qed.

Lemma falsy_true (s : string) : falsy s = true <-> s = "".
Proof. destruct s; simpl; split; intros H; congruence. Qed.

Lemma falsy_false (s : string) : falsy s = false <-> s <> "".
Proof. destruct s; simpl; split; intros H; congruence. Qed.

Lemma isspace_NL : isspace NL = true.
Proof. reflexivity. Qed.

Lemma prefix_NLNL (s : string) : String.prefix NLNL s = starts_nn s.
Proof.
  unfold NLNL.
  destruct s as [|a [|b s]]; cbn [String.prefix starts_nn].
  - reflexivity.
  - destruct (ascii_dec NL a); reflexivity.
  - destruct (ascii_dec NL a) as [<-|Ha].
    + destruct (ascii_dec NL b) as [<-|Hb].
      * destruct s; reflexivity.
      * destruct (Ascii.eqb_spec b NL); [congruence|].
        rewrite andb_false_r. reflexivity.
    + destruct (Ascii.eqb_spec a NL); [congruence|reflexivity].
Qed.

Lemma starts_nn_true (s : string) :
  starts_nn s = true <-> exists r, s = String NL (String NL r).
Proof.
  split.
  - destruct s as [|a [|b s]]; simpl; try discriminate.
    intros H. apply andb_true_iff in H as [Ha Hb].
    apply Ascii.eqb_eq in Ha, Hb. subst. eauto.
  - intros [r ->]. reflexivity.
Qed.

(** The three equations of [split] at the boundary. *)
Lemma split_nil : split NLNL "" = [""].
Proof. reflexivity. Qed.

Lemma split_sep (r : string) :
  split NLNL (String NL (String NL r)) = "" :: split NLNL r.
Proof. unfold split. cbn [split_go]. rewrite prefix_NLNL. reflexivity. Qed.

Lemma split_other (a : ascii) (s : string) :
  starts_nn (String a s) = false ->
  split NLNL (String a s) = cons_chunk a (split NLNL s).
Proof.
  intros H. unfold split. cbn [split_go]. rewrite prefix_NLNL, H. reflexivity.
Qed.

(** The first chunk is empty or starts as the string does. *)
Lemma split_head (s : string) :
  exists h t, split NLNL s = h :: t /\
    (h = "" \/ exists b h' s', h = String b h' /\ s = String b s').
Proof.
  destruct s as [|a s].
  - exists "", []. split; [reflexivity|]. left; reflexivity.
  - destruct (starts_nn (String a s)) eqn:E.
    + apply starts_nn_true in E as [r E]. rewrite E, split_sep.
      eexists _, _. split; [reflexivity|]. left; reflexivity.
    + rewrite (split_other _ _ E).
      destruct (split NLNL s) as [|h t]; simpl; eexists _, _;
        (split; [reflexivity|]); right; eauto.
Qed.

Lemma starts_nn_same_head (a b : ascii) (s t : string) :
  starts_nn (String a (String b s)) = starts_nn (String a (String b t)).
Proof. reflexivity. Qed.

(** Every chunk is free of the boundary. *)
Lemma split_go_no_nn (s : string) :
  forall skip, (skip <= 1)%nat -> Forall (fun c => no_nn c = true) (split_go NLNL skip s).
Proof.
  induction s as [|a s IH]; intros skip Hskip.
  - simpl. repeat constructor.
  - destruct skip as [|k].
    + cbn [split_go]. rewrite prefix_NLNL.
      destruct (starts_nn (String a s)) eqn:E.
      * constructor; [reflexivity|]. apply IH. simpl. lia.
      * specialize (IH O ltac:(lia)).
        destruct (split_head s) as (h & t & Hs & Hh).
        unfold split in Hs. rewrite Hs in IH |- *. simpl.
        inversion IH as [|? ? Hh' Ht]; subst.
        constructor; [|assumption].
        cbn [no_nn]. rewrite Hh', andb_true_r.
        destruct Hh as [->|(b & h' & s' & -> & ->)].
        -- reflexivity.
        -- rewrite (starts_nn_same_head a b h' s'), E. reflexivity.
    + cbn [split_go]. apply IH. lia.
Qed.

Lemma split_no_nn (s : string) : Forall (fun c => no_nn c = true) (split NLNL s).
Proof. apply split_go_no_nn. lia. Qed.

(** A string free of the boundary is its own single chunk. *)
Lemma split_single (p : string) : no_nn p = true -> split NLNL p = [p].
Proof.
  induction p as [|a p IH]; intros H; [reflexivity|].
  cbn [no_nn] in H. apply andb_true_iff in H as [H1 H2].
  apply negb_true_iff in H1.
  rewrite (split_other _ _ H1), (IH H2). reflexivity.
Qed.

(** A chunk that cannot run into the boundary is cut off in front of it. *)
Lemma split_app_sep (p rest : string) :
  no_nn (p +:+ String NL "") = true ->
  split NLNL (p +:+ NLNL +:+ rest) = p :: split NLNL rest.
Proof.
  induction p as [|a p IH]; intros H.
  - rewrite sapp_nil_l. apply split_sep.
  - rewrite sapp_cons in H |- *. cbn [no_nn] in H.
    apply andb_true_iff in H as [H1 H2]. apply negb_true_iff in H1.
    rewrite split_other.
    + rewrite (IH H2). reflexivity.
    + destruct p as [|b p].
      * rewrite sapp_nil_l in H1 |- *. exact H1.
      * rewrite sapp_cons in H1 |- *. exact H1.
Qed.

(* --------------------------------------------------------------------- *)
(** *** Facts about [strip] *)

Lemma length_lstrip (s : string) : (String.length (lstrip s) <= String.length s)%nat.
Proof.
  induction s as [|a s IH]; simpl; [lia|].
  destruct (isspace a); simpl; lia.
Qed.

Lemma lstrip_fixed_head (a : ascii) (s : string) :
  lstrip (String a s) = String a s -> isspace a = false.
Proof.
  simpl. destruct (isspace a); [|reflexivity].
  intros H. pose proof (length_lstrip s) as L. rewrite H in L. simpl in L. lia.
Qed.

Lemma lstrip_lstrip (s : string) : lstrip (lstrip s) = lstrip s.
Proof.
  induction s as [|a s IH]; simpl; [reflexivity|].
  destruct (isspace a) eqn:E; [exact IH|]. simpl. rewrite E. reflexivity.
Qed.

Lemma rstrip_cons (a : ascii) (s : string) :
  rstrip (String a s)
  = if falsy (rstrip s) then (if isspace a then "" else String a "")
    else String a (rstrip s).
Proof. simpl. destruct (rstrip s); reflexivity. Qed.

Lemma rstrip_head (s : string) (b : ascii) (r : string) :
  rstrip s = String b r -> exists s', s = String b s'.
Proof.
  destruct s as [|a s]; [discriminate|].
  rewrite rstrip_cons.
  destruct (falsy (rstrip s)); [destruct (isspace a)|]; intros H;
    inversion H; subst; eauto.
Qed.

Lemma rstrip_rstrip (s : string) : rstrip (rstrip s) = rstrip s.
Proof.
  induction s as [|a s IH]; [reflexivity|].
  rewrite rstrip_cons.
  destruct (falsy (rstrip s)) eqn:F.
  - destruct (isspace a) eqn:E; [reflexivity|].
    rewrite rstrip_cons. simpl. rewrite E. reflexivity.
  - rewrite rstrip_cons, IH, F. reflexivity.
Qed.

Lemma lstrip_rstrip_fixed (x : string) : lstrip x = x -> lstrip (rstrip x) = rstrip x.
Proof.
  destruct x as [|a x]; [reflexivity|].
  intros H. apply lstrip_fixed_head in H.
  rewrite rstrip_cons.
  destruct (falsy (rstrip x)); rewrite ?H; simpl; rewrite H; reflexivity.
Qed.

Lemma strip_strip (s : string) : strip (strip s) = strip s.
Proof.
  unfold strip.
  rewrite (lstrip_rstrip_fixed (lstrip s) (lstrip_lstrip s)).
  apply rstrip_rstrip.
Qed.

Lemma lstrip_no_nn (s : string) : no_nn s = true -> no_nn (lstrip s) = true.
Proof.
  induction s as [|a s IH]; [reflexivity|].
  intros H. simpl lstrip. destruct (isspace a); [|exact H].
  apply IH. cbn [no_nn] in H. apply andb_true_iff in H as [_ H]. exact H.
Qed.

Lemma rstrip_no_nn (s : string) : no_nn s = true -> no_nn (rstrip s) = true.
Proof.
  induction s as [|a s IH]; [reflexivity|].
  intros H. cbn [no_nn] in H. apply andb_true_iff in H as [H1 H2].
  specialize (IH H2). rewrite rstrip_cons.
  destruct (rstrip s) as [|b r] eqn:R; simpl falsy; cbv iota.
  - destruct (isspace a); reflexivity.
  - destruct (rstrip_head _ _ _ R) as [s' ->].
    cbn [no_nn]. cbn [no_nn] in IH. rewrite IH, andb_true_r.
    rewrite (starts_nn_same_head a b r s'). exact H1.
Qed.

Lemma strip_no_nn (s : string) : no_nn s = true -> no_nn (strip s) = true.
Proof. intros H. apply rstrip_no_nn, lstrip_no_nn, H. Qed.

(** A right-stripped, non-empty string can be followed by a newline
    without forming the boundary. *)
Lemma rstrip_fixed_no_nn (p : string) :
  rstrip p = p -> p <> "" -> no_nn p = true -> no_nn (p +:+ String NL "") = true.
Proof.
  induction p as [|a p IH]; [congruence|].
  intros Hr _ Hn. rewrite sapp_cons.
  cbn [no_nn] in Hn. apply andb_true_iff in Hn as [H1 H2].
  rewrite rstrip_cons in Hr.
  destruct p as [|b p].
  - simpl in Hr. destruct (isspace a) eqn:E; [discriminate|].
    rewrite sapp_nil_l. cbn [no_nn starts_nn].
    destruct (Ascii.eqb_spec a NL) as [->|_]; [discriminate E|reflexivity].
  - destruct (falsy (rstrip (String b p))) eqn:F.
    + destruct (isspace a); discriminate Hr.
    + inversion Hr as [Hr']. rewrite Hr'.
      specialize (IH Hr' ltac:(discriminate) H2).
      rewrite sapp_cons in IH |- *.
      cbn [no_nn]. cbn [no_nn] in IH. rewrite IH, andb_true_r.
      rewrite (starts_nn_same_head a b (p +:+ String NL "") p). exact H1.
Qed.

Lemma lstrip_all_space (s : string) : all_space s = true -> lstrip s = "".
Proof.
  induction s as [|a s IH]; [reflexivity|].
  simpl. intros H. apply andb_true_iff in H as [-> H]. auto.
Qed.

Lemma strip_all_space (s : string) : all_space s = true -> strip s = "".
Proof. intros H. unfold strip. rewrite (lstrip_all_space s H). reflexivity. Qed.

Lemma split_go_all_space (s : string) :
  all_space s = true ->
  forall skip, Forall (fun c => all_space c = true) (split_go NLNL skip s).
Proof.
  induction s as [|a s IH]; intros H skip.
  - simpl. repeat constructor.
  - simpl in H. apply andb_true_iff in H as [Ha Hs]. specialize (IH Hs).
    destruct skip as [|k]; cbn [split_go]; [|apply IH].
    destruct (String.prefix NLNL (String a s)).
    + constructor; [reflexivity|apply IH].
    + specialize (IH O). destruct (split_go NLNL 0 s) as [|h t]; simpl.
      * repeat constructor. simpl. rewrite Ha. reflexivity.
      * inversion IH; subst. constructor; [|assumption].
        simpl. rewrite Ha. assumption.
Qed.

(* --------------------------------------------------------------------- *)
(** *** Splitting what was joined *)

Lemma strip_clean (c : string) :
  no_nn c = true -> falsy (strip c) = false -> clean (strip c).
Proof.
  intros Hn Hf. apply falsy_false in Hf.
  split; [exact Hf|]. split; [|split].
  - unfold strip. apply lstrip_rstrip_fixed, lstrip_lstrip.
  - unfold strip. apply rstrip_rstrip.
  - apply strip_no_nn, Hn.
Qed.

Lemma clean_strip (p : string) : clean p -> strip p = p.
Proof. intros (_ & Hl & Hr & _). unfold strip. rewrite Hl. exact Hr. Qed.

Lemma split_join_clean (P : list string) :
  Forall clean P -> P <> [] -> split NLNL (join NLNL P) = P.
Proof.
  induction P as [|p P IH]; [congruence|].
  intros HP _. inversion HP as [|? ? Hp HP']; subst.
  destruct P as [|q P].
  - simpl. apply split_single. apply Hp.
  - change (join NLNL (p :: q :: P)) with (p +:+ NLNL +:+ join NLNL (q :: P)).
    rewrite split_app_sep.
    + rewrite IH; [reflexivity|assumption|discriminate].
    + destruct Hp as (Hne & _ & Hr & Hn). apply rstrip_fixed_no_nn; assumption.
Qed.

Lemma keep_clean (P : list string) :
  Forall clean P ->
  List.filter (fun chunk => negb (falsy chunk)) (map strip P) = P.
Proof.
  induction 1 as [|p P Hp _ IH]; [reflexivity|].
  simpl. rewrite (clean_strip p Hp), IH.
  destruct Hp as (Hne & _). apply falsy_false in Hne. rewrite Hne. reflexivity.
Qed.

(* --------------------------------------------------------------------- *)
(** *** [split] cuts at the boundary, [strip] removes only whitespace *)

Lemma split_go_nonempty (sep : string) (s : string) :
  forall skip, split_go sep skip s <> [].
Proof.
  induction s as [|a s IH]; intros skip; [discriminate|].
  destruct skip as [|k]; cbn [split_go]; [|apply IH].
  destruct (String.prefix sep (String a s)); [discriminate|].
  destruct (split_go sep 0 s); discriminate.
Qed.

Lemma join_cons_chunk (sep : string) (a : ascii) (l : list string) :
  l <> [] -> join sep (cons_chunk a l) = String a (join sep l).
Proof.
  destruct l as [|h [|h' t]]; [congruence| |]; intros _; reflexivity.
Qed.

Lemma join_cons (sep p : string) (l : list string) :
  l <> [] -> join sep (p :: l) = p +:+ sep +:+ join sep l.
Proof. destruct l; [congruence|reflexivity]. Qed.

(** Joining the chunks with the boundary gives the string back. *)
Lemma join_split (s : string) : join NLNL (split NLNL s) = s.
Proof.
  remember (String.length s) as n eqn:Hn.
  revert s Hn. induction n as [n IH] using lt_wf_ind. intros s Hn.
  destruct s as [|a s]; [reflexivity|].
  destruct (starts_nn (String a s)) eqn:E.
  - apply starts_nn_true in E as [r E]. rewrite E, split_sep.
    rewrite join_cons by apply split_go_nonempty.
    rewrite (IH (String.length r)); [reflexivity| |reflexivity].
    subst n. inversion E; subst. simpl. lia.
  - rewrite (split_other _ _ E).
    rewrite join_cons_chunk by apply split_go_nonempty.
    rewrite (IH (String.length s)); [reflexivity| |reflexivity].
    subst n. simpl. lia.
Qed.

Lemma lstrip_decompose (s : string) :
  exists l, s = l +:+ lstrip s /\ all_space l = true.
Proof.
  induction s as [|a s (l & Hl & Hs)].
  - exists "". split; reflexivity.
  - simpl lstrip. destruct (isspace a) eqn:E.
    + exists (String a l). rewrite sapp_cons, <- Hl. split; [reflexivity|].
      simpl. rewrite E. exact Hs.
    + exists "". split; reflexivity.
Qed.

Lemma rstrip_decompose (s : string) :
  exists r, s = rstrip s +:+ r /\ all_space r = true.
Proof.
  induction s as [|a s (r & Hr & Hs)].
  - exists "". split; reflexivity.
  - rewrite rstrip_cons. destruct (falsy (rstrip s)) eqn:F.
    + apply falsy_true in F. rewrite F, sapp_nil_l in Hr. subst r.
      destruct (isspace a) eqn:E.
      * exists (String a s). split; [reflexivity|]. simpl. rewrite E. exact Hs.
      * exists s. split; [reflexivity|exact Hs].
    + exists r. rewrite sapp_cons, <- Hr. split; [reflexivity|exact Hs].
Qed.

(** [strip] takes whitespace, and only whitespace, off both ends. *)
Lemma strip_decompose (s : string) :
  exists l r, s = l +:+ strip s +:+ r /\ all_space l = true /\ all_space r = true.
Proof.
  destruct (lstrip_decompose s) as (l & Hl & Hls).
  destruct (rstrip_decompose (lstrip s)) as (r & Hr & Hrs).
  exists l, r. unfold strip. rewrite <- Hr. auto.
Qed.

Lemma strip_trimmed (s : string) :
  lstrip (strip s) = strip s /\ rstrip (strip s) = strip s.
Proof.
  unfold strip. split.
  - apply lstrip_rstrip_fixed, lstrip_lstrip.
  - apply rstrip_rstrip.
Qed.

(** The paragraphs of any body are clean. *)
Lemma spec_paragraphs_clean (body : string) : Forall clean (spec_paragraphs body).
Proof.
  unfold spec_paragraphs.
  pose proof (split_no_nn body) as H.
  induction H as [|c chunks Hc _ IH]; simpl; [constructor|].
  destruct (falsy (strip c)) eqn:F; simpl; [exact IH|].
  constructor; [apply strip_clean; assumption|exact IH].
Qed.

(** Splitting the joined clean paragraphs gives them back. *)
Lemma spec_paragraphs_join (P : list string) :
  Forall clean P -> spec_paragraphs (join NLNL P) = P.
Proof.
  intros HP. destruct P as [|p P]; [reflexivity|].
  unfold spec_paragraphs. rewrite split_join_clean by (auto; discriminate).
  apply keep_clean, HP.
Qed.

Lemma spec_paragraphs_all_space (body : string) :
  all_space body = true -> spec_paragraphs body = [].
Proof.
  intros H. unfold spec_paragraphs.
  pose proof (split_go_all_space body H O) as HF. fold (split NLNL body) in HF.
  induction HF as [|c chunks Hc _ IH]; [reflexivity|].
  simpl. rewrite (strip_all_space c Hc). simpl. exact IH.
Qed.

End PyFacts.

(* ===================================================================== *)
(** ** Facts about [find], [rfind] and slicing *)
(* ===================================================================== *)

Module FindFacts.
Import Py PyFacts.

Lemma len_nonneg (s : string) : 0 <= len s.
Proof. unfold len. lia. Qed.

Lemma len_cons (a : ascii) (s : string) : len (String a s) = 1 + len s.
Proof. unfold len. simpl. lia. Qed.

Lemma len_app (s t : string) : len (s +:+ t) = len s + len t.
Proof.
  induction s as [|a s IH]; [rewrite sapp_nil_l; unfold len; simpl; lia|].
  rewrite sapp_cons, !len_cons, IH. lia.
Qed.

Lemma sapp_assoc (s t u : string) : (s +:+ t) +:+ u = s +:+ t +:+ u.
Proof.
  induction s as [|a s IH]; [reflexivity|].
  rewrite !sapp_cons, IH. reflexivity.
Qed.

Lemma count_nonneg (c : ascii) (s : string) : 0 <= count c s.
Proof.
  induction s as [|a s IH]; simpl; [lia|].
  destruct (Ascii.eqb a c); lia.
Qed.

Lemma count_app (c : ascii) (s t : string) :
  count c (s +:+ t) = count c s + count c t.
Proof.
  induction s as [|a s IH]; [reflexivity|].
  rewrite sapp_cons. simpl. rewrite IH. lia.
Qed.

Lemma count_cons_zero (c a : ascii) (s : string) :
  count c (String a s) = 0 -> Ascii.eqb a c = false /\ count c s = 0.
Proof.
  simpl. pose proof (count_nonneg c s).
  destruct (Ascii.eqb a c); [lia|]. split; [reflexivity|lia].
Qed.

(** [find] returns -1 when the character is absent, and the length of
    the part in front of the first occurrence otherwise. *)
Lemma find_from_absent (c : ascii) (s : string) (i : Z) :
  count c s = 0 -> find_from c s i = -1.
Proof.
  revert i. induction s as [|a s IH]; intros i H; [reflexivity|].
  apply count_cons_zero in H as [E H]. simpl. rewrite E. auto.
Qed.

Lemma find_from_first (c : ascii) (pre post : string) (i : Z) :
  count c pre = 0 -> find_from c (pre +:+ String c post) i = i + len pre.
Proof.
  revert i. induction pre as [|a pre IH]; intros i H.
  - rewrite sapp_nil_l. simpl. rewrite Ascii.eqb_refl. unfold len. simpl. lia.
  - apply count_cons_zero in H as [E H].
    rewrite sapp_cons. simpl. rewrite E, (IH _ H), len_cons. lia.
Qed.

(** [rfind] returns -1 when the character is absent, and the length of
    the part in front of the last occurrence otherwise. *)
Lemma rfind_from_absent (c : ascii) (s : string) (i : Z) :
  count c s = 0 -> rfind_from c s i = -1.
Proof.
  revert i. induction s as [|a s IH]; intros i H; [reflexivity|].
  apply count_cons_zero in H as [E H]. simpl. rewrite (IH _ H), E. reflexivity.
Qed.

Lemma rfind_from_last (c : ascii) (pre post : string) (i : Z) :
  0 <= i -> count c post = 0 ->
  rfind_from c (pre +:+ String c post) i = i + len pre.
Proof.
  revert i. induction pre as [|a pre IH]; intros i Hi H.
  - rewrite sapp_nil_l. simpl. rewrite (rfind_from_absent _ _ _ H), Ascii.eqb_refl.
    unfold len. simpl. lia.
  - rewrite sapp_cons. simpl. rewrite (IH (i + 1) ltac:(lia) H), len_cons.
    pose proof (len_nonneg pre).
    destruct (Z.eqb_spec (i + 1 + len pre) (-1)); lia.
Qed.

Lemma substring_middle (pre m post : string) :
  String.substring (String.length pre) (String.length m) (pre +:+ m +:+ post) = m.
Proof.
  induction pre as [|a pre IH].
  - rewrite sapp_nil_l. simpl String.length.
    induction m as [|b m IHm].
    + rewrite sapp_nil_l. destruct post; reflexivity.
    + rewrite sapp_cons. simpl. rewrite IHm. reflexivity.
  - rewrite sapp_cons. simpl. exact IH.
Qed.

Lemma slice_middle (pre m post : string) :
  slice (pre +:+ m +:+ post) (len pre) (len pre + len m) = m.
Proof.
  unfold slice. fold (len (pre +:+ m +:+ post)).
  rewrite !len_app.
  pose proof (len_nonneg pre). pose proof (len_nonneg m). pose proof (len_nonneg post).
  destruct (Z.ltb_spec (len pre) 0); [lia|].
  destruct (Z.ltb_spec (len pre + len m) 0); [lia|].
  rewrite !Z.min_l by lia.
  replace (len pre + len m - len pre) with (len m) by lia.
  unfold len. rewrite !Nat2Z.id. apply substring_middle.
Qed.

(** The first and the last occurrence of a character split the string. *)
Lemma first_occurrence (c : ascii) (s : string) :
  count c s = 0 \/ exists pre post, s = pre +:+ String c post /\ count c pre = 0.
Proof.
  induction s as [|a s IH]; [left; reflexivity|].
  destruct (Ascii.eqb_spec a c) as [->|Hne].
  - right. exists "", s. split; reflexivity.
  - assert (E : Ascii.eqb a c = false) by (apply Ascii.eqb_neq; exact Hne).
    destruct IH as [H|(pre & post & -> & H)].
    + left. simpl. rewrite E, H. reflexivity.
    + right. exists (String a pre), post. split; [reflexivity|].
      simpl. rewrite E, H. reflexivity.
Qed.

Lemma last_occurrence (c : ascii) (s : string) :
  count c s = 0 \/ exists pre post, s = pre +:+ String c post /\ count c post = 0.
Proof.
  induction s as [|a s IH]; [left; reflexivity|].
  destruct IH as [H|(pre & post & -> & H)].
  - destruct (Ascii.eqb_spec a c) as [->|Hne].
    + right. exists "", s. split; [reflexivity|exact H].
    + left. simpl. rewrite H.
      replace (Ascii.eqb a c) with false
        by (symmetry; apply Ascii.eqb_neq; exact Hne).
      reflexivity.
  - right. exists (String a pre), post. split; [reflexivity|exact H].
Qed.

(** Two different marked positions of one string: one is in front of
    the other. *)
Lemma two_marks (c d : ascii) (pre1 post1 pre2 post2 : string) :
  c <> d ->
  pre1 +:+ String c post1 = pre2 +:+ String d post2 ->
  (exists mid, pre2 = pre1 +:+ String c mid /\ post1 = mid +:+ String d post2)
  \/ (exists mid, pre1 = pre2 +:+ String d mid /\ post2 = mid +:+ String c post1).
Proof.
  intros Hcd. revert pre2.
  induction pre1 as [|a pre1 IH]; intros pre2 H.
  - destruct pre2 as [|x pre2].
    + inversion H. congruence.
    + inversion H; subst. left. exists pre2. split; reflexivity.
  - destruct pre2 as [|x pre2].
    + inversion H; subst. right. exists pre1. split; reflexivity.
    + inversion H as [[Hx Ht]]. subst x.
      destruct (IH _ Ht) as [(mid & -> & ->)|(mid & -> & ->)].
      * left. exists mid. split; reflexivity.
      * right. exists mid. split; reflexivity.
Qed.

End FindFacts.

(* ===================================================================== *)
(** ** Shared lemmas on sections and bodies *)
(* ===================================================================== *)

Import Py PyFacts FindFacts.

Lemma body_paragraphs_eq (body : string) :
  body_paragraphs body = map Paragraph (spec_paragraphs body).
Proof.
  unfold body_paragraphs, spec_paragraphs.
  destruct body as [|a body]; [reflexivity|].
  cbn [falsy]. rewrite body_loop_eq. reflexivity.
Qed.

Lemma paragraph_texts_paragraphs (l : list string) :
  paragraph_texts (map Paragraph l) = l.
Proof. induction l as [|x l IH]; simpl; [reflexivity|]. rewrite IH. reflexivity. Qed.

Lemma section_body_lookup (sections : gmap string string) (t body : string) :
  sections !! t = Some body -> section_body sections t = spec_paragraphs body.
Proof.
  intros H. unfold section_body. rewrite H. simpl.
  destruct body; reflexivity.
Qed.

Lemma section_body_missing (sections : gmap string string) (t : string) :
  sections !! t = None \/ sections !! t = Some "" -> section_body sections t = [].
Proof. intros [H|H]; unfold section_body; rewrite H; reflexivity. Qed.

(** Two dictionaries that agree on the catalog give the same sections. *)
Lemma sections_agree (m1 m2 : gmap string string) (png_bytes : list Byte.byte)
    (catalog : list string) :
  (forall t, In t catalog -> m1 !! t = m2 !! t) ->
  flat_map (section_blocks m1 png_bytes) catalog
  = flat_map (section_blocks m2 png_bytes) catalog.
Proof.
  induction catalog as [|t catalog IH]; intros H; [reflexivity|].
  cbn [flat_map]. rewrite IH.
  - unfold section_blocks, section_body. rewrite (H t); [reflexivity|].
    left; reflexivity.
  - intros t' Ht'. apply H. right; exact Ht'.
Qed.

Lemma count_pictures_sections (sections : gmap string string)
    (png_bytes : list Byte.byte) (catalog : list string) :
  count_pictures (flat_map (section_blocks sections png_bytes) catalog)
  = length (List.filter (fun t => String.eqb t DIAGRAM_SECTION) catalog).
Proof.
  induction catalog as [|t catalog IH]; [reflexivity|].
  cbn [flat_map]. rewrite count_pictures_app, count_pictures_section_blocks, IH.
  cbn [List.filter]. destruct (String.eqb t DIAGRAM_SECTION); reflexivity.
Qed.

(* ===================================================================== *)
(** ** Shared lemmas on [extract_json_from_text] *)
(* ===================================================================== *)

Lemma falsy_app_cons (pre : string) (c : ascii) (post : string) :
  falsy (pre +:+ String c post) = false.
Proof. destruct pre; reflexivity. Qed.

(** The span from the first '{' to the last '}' when the last '}' is
    behind the first '{'. *)
Lemma extract_span (pre mid post : string) :
  count "{"%char pre = 0 -> count "}"%char post = 0 ->
  extract_json_from_text (pre +:+ "{" +:+ mid +:+ "}" +:+ post)
  = "{" +:+ mid +:+ "}".
Proof.
  intros Hpre Hpost.
  pose proof (len_nonneg pre). pose proof (len_nonneg mid).
  set (text := pre +:+ "{" +:+ mid +:+ "}" +:+ post).
  assert (Hf : falsy text = false) by apply falsy_app_cons.
  assert (Hs : find "{"%char text = len pre).
  { unfold find, text.
    change (pre +:+ "{" +:+ mid +:+ "}" +:+ post)
      with (pre +:+ String "{"%char (mid +:+ "}" +:+ post)).
    rewrite (find_from_first _ _ _ 0 Hpre). lia. }
  assert (He : rfind "}"%char text = len pre + 1 + len mid).
  { unfold rfind, text.
    replace (pre +:+ "{" +:+ mid +:+ "}" +:+ post)
      with ((pre +:+ "{" +:+ mid) +:+ String "}"%char post)
      by (rewrite !sapp_assoc; reflexivity).
    rewrite (rfind_from_last _ _ _ 0 ltac:(lia) Hpost), !len_app.
    change (len "{") with 1. lia. }
  unfold extract_json_from_text. rewrite Hf, Hs, He.
  destruct (Z.eqb_spec (len pre) (-1)); [lia|].
  destruct (Z.eqb_spec (len pre + 1 + len mid) (-1)); [lia|].
  destruct (Z.leb_spec (len pre + 1 + len mid) (len pre)); [lia|].
  cbn [orb]. unfold text.
  replace (pre +:+ "{" +:+ mid +:+ "}" +:+ post)
    with (pre +:+ ("{" +:+ mid +:+ "}") +:+ post)
    by (rewrite !sapp_assoc; reflexivity).
  replace (len pre + 1 + len mid + 1) with (len pre + len ("{" +:+ mid +:+ "}")).
  - apply slice_middle.
  - rewrite !len_app. change (len "{") with 1. change (len "}") with 1. lia.
Qed.

(** Nothing when the last '}' is in front of the first '{'. *)
Lemma extract_reversed (pre mid post : string) :
  count "{"%char (pre +:+ "}" +:+ mid) = 0 ->
  count "}"%char (mid +:+ "{" +:+ post) = 0 ->
  extract_json_from_text (pre +:+ "}" +:+ mid +:+ "{" +:+ post) = "".
Proof.
  intros Hopen Hclose.
  pose proof (len_nonneg pre). pose proof (len_nonneg mid).
  set (text := pre +:+ "}" +:+ mid +:+ "{" +:+ post).
  assert (He : rfind "}"%char text = len pre).
  { unfold rfind, text.
    change (pre +:+ "}" +:+ mid +:+ "{" +:+ post)
      with (pre +:+ String "}"%char (mid +:+ "{" +:+ post)).
    rewrite (rfind_from_last _ _ _ 0 ltac:(lia) Hclose). lia. }
  assert (Hs : find "{"%char text = len pre + 1 + len mid).
  { unfold find, text.
    replace (pre +:+ "}" +:+ mid +:+ "{" +:+ post)
      with ((pre +:+ "}" +:+ mid) +:+ String "{"%char post)
      by (rewrite !sapp_assoc; reflexivity).
    rewrite (find_from_first _ _ _ 0 Hopen), !len_app.
    change (len "}") with 1. lia. }
  unfold extract_json_from_text. rewrite Hs, He.
  destruct (Z.leb_spec (len pre) (len pre + 1 + len mid)); [|lia].
  rewrite !orb_true_r. destruct (falsy text); reflexivity.
Qed.

Lemma extract_no_open (text : string) :
  count "{"%char text = 0 -> extract_json_from_text text = "".
Proof.
  intros H. unfold extract_json_from_text, find.
  rewrite (find_from_absent _ _ 0 H).
  destruct (falsy text); reflexivity.
Qed.

Lemma extract_no_close (text : string) :
  count "}"%char text = 0 -> extract_json_from_text text = "".
Proof.
  intros H. unfold extract_json_from_text, rfind.
  rewrite (rfind_from_absent _ _ 0 H).
  destruct (falsy text); [reflexivity|].
  destruct (find "{"%char text =? -1); reflexivity.
Qed.

(** Every text is in one of the cases of the extraction. *)
Lemma brace_cases (text : string) :
  (exists pre mid post,
     text = pre +:+ "{" +:+ mid +:+ "}" +:+ post
     /\ count "{"%char pre = 0 /\ count "}"%char post = 0)
  \/ count "{"%char text = 0
  \/ count "}"%char text = 0
  \/ (exists pre mid post,
        text = pre +:+ "}" +:+ mid +:+ "{" +:+ post
        /\ count "{"%char (pre +:+ "}" +:+ mid) = 0
        /\ count "}"%char (mid +:+ "{" +:+ post) = 0).
Proof.
  destruct (first_occurrence "{"%char text) as [H|(pre1 & post1 & E1 & H1)];
    [right; left; exact H|].
  destruct (last_occurrence "}"%char text) as [H|(pre2 & post2 & E2 & H2)];
    [right; right; left; exact H|].
  rewrite E1 in E2.
  destruct (two_marks "{"%char "}"%char pre1 post1 pre2 post2 ltac:(discriminate) E2)
    as [(mid & Hp & Hq)|(mid & Hp & Hq)].
  - left. exists pre1, mid, post2. subst. auto.
  - right; right; right. exists pre2, mid, post1. subst. auto.
Qed.

Lemma extract_empty_or_span (text : string) :
  extract_json_from_text text = ""
  \/ exists pre mid post,
       text = pre +:+ "{" +:+ mid +:+ "}" +:+ post
       /\ count "{"%char pre = 0 /\ count "}"%char post = 0
       /\ extract_json_from_text text = "{" +:+ mid +:+ "}".
Proof.
  destruct (brace_cases text)
    as [(pre & mid & post & -> & H1 & H2)|[H|[H|(pre & mid & post & -> & H1 & H2)]]].
  - right. exists pre, mid, post. repeat split; try assumption.
    apply extract_span; assumption.
  - left. apply extract_no_open, H.
  - left. apply extract_no_close, H.
  - left. apply extract_reversed; assumption.
Qed.

(** An empty extraction fails the request with the ValueError. *)
Lemma empty_extraction_raises (json_loads : string -> result (gmap string string))
    (w : World) (jira_text raw_text : string) :
  responses_create w jira_text = Ok raw_text ->
  extract_json_from_text raw_text = "" ->
  generate_all_sections json_loads w jira_text
  = Raise (ValueError
      "Model did not return valid JSON. Try reducing input text or try again.").
Proof.
  intros Hr He. unfold generate_all_sections. rewrite Hr. simpl.
  rewrite He. reflexivity.
Qed.

(* ===================================================================== *)
(** ** The claims *)
(* ===================================================================== *)

(** C1. For every catalog, content map and metadata, the assembled
    document is the title heading, the four metadata paragraphs (project
    name, version, date, prepared-by), one page break, and then a rest
    that holds no further page break and whose headings are exactly the
    catalog titles, one per title and in catalog order, whatever the
    content map holds; for the empty catalog the rest is empty. *)
Theorem document_layout (catalog : list string)
    (project_name version today prepared_by : string)
    (sections : gmap string string) (png_bytes : list Byte.byte) :
  exists rest : Document,
    build_document catalog project_name version today prepared_by sections png_bytes
    = [ Heading 0 "Solution Design Document";
        Paragraph ("Project Name: " +:+ project_name);
        Paragraph ("Version: " +:+ version);
        Paragraph ("Date: " +:+ today);
        Paragraph ("Prepared By: " +:+ prepared_by);
        PageBreak ] ++ rest
    /\ map snd (headings rest) = catalog
    /\ headings rest = map (fun t => (heading_level t, t)) catalog
    /\ length (headings rest) = length catalog
    /\ count_page_breaks rest = O
    /\ count_page_breaks
         (build_document catalog project_name version today prepared_by
            sections png_bytes) = 1%nat
    /\ build_document [] project_name version today prepared_by sections png_bytes
       = [ Heading 0 "Solution Design Document";
           Paragraph ("Project Name: " +:+ project_name);
           Paragraph ("Version: " +:+ version);
           Paragraph ("Date: " +:+ today);
           Paragraph ("Prepared By: " +:+ prepared_by);
           PageBreak ].
Proof.
  exists (flat_map (section_blocks sections png_bytes) catalog).
  rewrite build_document_eq, headings_sections, count_page_breaks_sections.
  repeat split.
  - rewrite map_map. simpl. apply map_id.
  - rewrite length_map. reflexivity.
  - unfold title_block. simpl. rewrite count_page_breaks_sections. reflexivity.
Qed.

(** C2. The heading a section gets is at level 1 when its title holds
    exactly one '.', and at level 2 for every other count; nothing else
    of the title, the content map or the document so far enters. *)
Theorem heading_level_by_dot_count (sections : gmap string string)
    (png_bytes : list Byte.byte) (doc : Document) (section_title : string) :
  headings (render_section sections png_bytes doc section_title)
  = headings doc
      ++ [(if Py.count "."%char section_title =? 1 then 1 else 2, section_title)].
Proof.
  rewrite render_section_eq, headings_app, headings_section_blocks.
  reflexivity.
Qed.

(** C3. On scenario A the code emits two headings, "1. Overview" with
    two body paragraphs and "1.1 Audience" with none; both headings are
    at level 1, because "1.1 Audience" holds exactly one '.'. The same
    holds for all 24 titles of [SECTIONS]: the level-2 branch is never
    taken on the catalog of the program. *)
Theorem scenario_A_levels (png_bytes : list Byte.byte) :
  fold_left (render_section Scenario.content_A png_bytes) Scenario.catalog_A []
  = [ Heading 1 "1. Overview";
      Paragraph "Intro para.";
      Paragraph "Second para.";
      Heading 1 "1.1 Audience" ]
  /\ Py.count "."%char "1.1 Audience" = 1
  /\ map heading_level SECTIONS = repeat 1 24.
Proof. repeat split; vm_compute; reflexivity. Qed.

(** C4. Whatever the content map holds, the turn for the diagram title
    appends the heading, the caption, the picture at a width of 6.5
    inches (5943600 EMU), the spacing paragraph, and then the body
    paragraphs of that title, computed as for every title: exactly one
    picture. The turn for any other title appends the heading and the
    body paragraphs only: no picture. *)
Theorem diagram_section_picture (sections : gmap string string)
    (png_bytes : list Byte.byte) (doc : Document) (section_title : string)
    (Hother : section_title <> DIAGRAM_SECTION) :
  DIAGRAM_SECTION = "2.3 Architectural Diagram"
  /\ render_section sections png_bytes doc DIAGRAM_SECTION
     = doc ++ [ Heading (heading_level DIAGRAM_SECTION) DIAGRAM_SECTION;
                Paragraph "Diagram (auto-generated):";
                Picture png_bytes (Inches (13 # 2));
                Paragraph "" ]
           ++ map Paragraph (section_body sections DIAGRAM_SECTION)
  /\ Inches (13 # 2) = 5943600
  /\ count_pictures (render_section sections png_bytes [] DIAGRAM_SECTION) = 1%nat
  /\ render_section sections png_bytes doc section_title
     = doc ++ Heading (heading_level section_title) section_title
           :: map Paragraph (section_body sections section_title)
  /\ count_pictures (render_section sections png_bytes [] section_title) = O.
Proof.
  assert (E : String.eqb section_title DIAGRAM_SECTION = false)
    by (apply String.eqb_neq; exact Hother).
  rewrite !render_section_eq, !count_pictures_app, !count_pictures_section_blocks.
  rewrite E. repeat split.
  unfold section_blocks, diagram_blocks. rewrite E. reflexivity.
Qed.

Lemma diagram_section_picture_witness :
  "1. Overview" <> DIAGRAM_SECTION
  /\ count_pictures (render_section Scenario.content_A [] [] "1. Overview") = O.
Proof.
  split; [discriminate|].
  apply (diagram_section_picture Scenario.content_A [] [] "1. Overview").
  discriminate.
Defined.

(** C5. A title that the content map lacks, or maps to the empty
    string, still gets its heading (and, for the diagram title, the
    diagram blocks) and no body paragraph; the call does not fail. A key
    outside the catalog changes nothing in the document. *)
Theorem missing_content_keeps_heading (catalog : list string)
    (project_name version today prepared_by : string)
    (sections : gmap string string) (png_bytes : list Byte.byte)
    (doc : Document) (section_title key body : string)
    (Hmissing : sections !! section_title = None \/ sections !! section_title = Some "")
    (Hunknown : ~ In key catalog) :
  render_section sections png_bytes doc section_title
  = doc ++ Heading (heading_level section_title) section_title
        :: diagram_blocks png_bytes section_title
  /\ body_paragraphs (default "" (sections !! section_title)) = []
  /\ build_document catalog project_name version today prepared_by
       (<[key := body]> sections) png_bytes
     = build_document catalog project_name version today prepared_by
         sections png_bytes
  /\ headings (build_document catalog project_name version today prepared_by
                 (<[key := body]> sections) png_bytes)
     = (0, "Solution Design Document") :: map (fun t => (heading_level t, t)) catalog.
Proof.
  assert (Hins : build_document catalog project_name version today prepared_by
                   (<[key := body]> sections) png_bytes
                 = build_document catalog project_name version today prepared_by
                     sections png_bytes).
  { rewrite !build_document_eq. do 2 f_equal. apply sections_agree.
    intros t Ht. apply lookup_insert_ne. intros ->. exact (Hunknown Ht). }
  repeat split.
  - rewrite render_section_eq. unfold section_blocks.
    rewrite (section_body_missing _ _ Hmissing). simpl. rewrite app_nil_r.
    reflexivity.
  - destruct Hmissing as [-> | ->]; reflexivity.
  - exact Hins.
  - rewrite Hins, build_document_eq, !headings_app, headings_sections. reflexivity.
Qed.

Lemma missing_content_keeps_heading_witness :
  ((∅ : gmap string string) !! "1.1 Audience" = None
   \/ (∅ : gmap string string) !! "1.1 Audience" = Some "")
  /\ ~ In "9. Unknown" Scenario.catalog_A
  /\ build_document Scenario.catalog_A "P" "1" "2024-01-01" "me"
       (<["9. Unknown" := "text"]> ∅) []
     = build_document Scenario.catalog_A "P" "1" "2024-01-01" "me" ∅ [].
Proof.
  assert (H1 : (∅ : gmap string string) !! "1.1 Audience" = None
               \/ (∅ : gmap string string) !! "1.1 Audience" = Some "")
    by (left; reflexivity).
  assert (H2 : ~ In "9. Unknown" Scenario.catalog_A)
    by (simpl; intros [H|[H|[]]]; discriminate H).
  split; [exact H1|]. split; [exact H2|].
  apply (missing_content_keeps_heading Scenario.catalog_A "P" "1" "2024-01-01" "me"
           ∅ [] [] "1.1 Audience" "9. Unknown" "text" H1 H2).
Defined.

(** C6. For a non-empty body, the paragraphs the loop appends are the
    chunks of the body split at the blank-line boundary, each stripped,
    the ones empty after stripping left out, in their order. The chunks
    joined by the boundary give the body back and hold no boundary
    themselves; stripping takes whitespace, and only whitespace, off
    both ends of a chunk. *)
Theorem paragraphs_split_trim_filter (sections : gmap string string)
    (png_bytes : list Byte.byte) (doc : Document) (section_title body chunk : string)
    (Hbody : sections !! section_title = Some body) (Hnonempty : body <> "") :
  render_section sections png_bytes doc section_title
  = doc ++ Heading (heading_level section_title) section_title
        :: diagram_blocks png_bytes section_title
        ++ map Paragraph
             (List.filter (fun c => negb (Py.falsy c))
                (map Py.strip (Py.split Py.NLNL body)))
  /\ body_paragraphs body
     = map Paragraph
         (List.filter (fun c => negb (Py.falsy c))
            (map Py.strip (Py.split Py.NLNL body)))
  /\ Py.join Py.NLNL (Py.split Py.NLNL body) = body
  /\ Forall (fun c => Py.no_nn c = true) (Py.split Py.NLNL body)
  /\ (exists l r, chunk = l +:+ Py.strip chunk +:+ r
                  /\ Py.all_space l = true /\ Py.all_space r = true)
  /\ Py.lstrip (Py.strip chunk) = Py.strip chunk
  /\ Py.rstrip (Py.strip chunk) = Py.strip chunk.
Proof.
  split; [|split; [|split; [|split; [|split]]]].
  - rewrite render_section_eq. unfold section_blocks.
    rewrite (section_body_lookup _ _ _ Hbody). reflexivity.
  - apply body_paragraphs_eq.
  - apply join_split.
  - apply split_no_nn.
  - apply strip_decompose.
  - apply strip_trimmed.
Qed.

Lemma paragraphs_split_trim_filter_witness :
  Scenario.content_A !! "1. Overview"
    = Some ("Intro para." +:+ Py.NLNL +:+ "Second para.")
  /\ "Intro para." +:+ Py.NLNL +:+ "Second para." <> ""
  /\ body_paragraphs ("Intro para." +:+ Py.NLNL +:+ "Second para.")
     = map Paragraph
         (List.filter (fun c => negb (Py.falsy c))
            (map Py.strip
               (Py.split Py.NLNL ("Intro para." +:+ Py.NLNL +:+ "Second para.")))).
Proof.
  assert (H1 : Scenario.content_A !! "1. Overview"
               = Some ("Intro para." +:+ Py.NLNL +:+ "Second para."))
    by (vm_compute; reflexivity).
  assert (H2 : "Intro para." +:+ Py.NLNL +:+ "Second para." <> "")
    by (vm_compute; discriminate).
  split; [exact H1|]. split; [exact H2|].
  apply (paragraphs_split_trim_filter Scenario.content_A [] [] "1. Overview"
           ("Intro para." +:+ Py.NLNL +:+ "Second para.") "  x " H1 H2).
Defined.

(** C7. Joining the paragraphs a body produced with the blank-line
    boundary and running the same split, strip and filter on the joined
    text produces the same paragraphs again; this holds for every body,
    so for every non-empty one. *)
Theorem resplit_same_paragraphs (body : string) :
  body_paragraphs (Py.join Py.NLNL (paragraph_texts (body_paragraphs body)))
  = body_paragraphs body.
Proof.
  rewrite (body_paragraphs_eq body), paragraph_texts_paragraphs.
  rewrite body_paragraphs_eq.
  rewrite (spec_paragraphs_join _ (spec_paragraphs_clean body)).
  reflexivity.
Qed.

(** C8, as stated, fails: with the same arguments and the same model
    reply, a call on Monday and a call on Tuesday return different
    documents, because the date paragraph is read from the clock inside
    [generate_design_doc_bytes]; so the result is not a function of the
    arguments alone. *)
Lemma clock_changes_document :
  generate_design_doc_bytes Scenario.loads_empty Scenario.monday "story" "P" "1" "me"
  <> generate_design_doc_bytes Scenario.loads_empty Scenario.tuesday "story" "P" "1" "me"
  /\ ~ (forall (json_loads : string -> result (gmap string string)) (w1 w2 : World)
          (jira_text project_name version prepared_by : string),
          generate_design_doc_bytes json_loads w1 jira_text project_name version
            prepared_by
          = generate_design_doc_bytes json_loads w2 jira_text project_name version
              prepared_by).
Proof.
  assert (H : generate_design_doc_bytes Scenario.loads_empty Scenario.monday
                "story" "P" "1" "me"
              <> generate_design_doc_bytes Scenario.loads_empty Scenario.tuesday
                   "story" "P" "1" "me")
    by (vm_compute; discriminate).
  split; [exact H|].
  intros Hall. apply H. apply Hall.
Qed.

(** C8, amended. The result of [generate_design_doc_bytes] depends on
    the world only through the date of the day, the model's reply to the
    given Jira text and the rendered diagram: two calls with the same
    arguments that read the same three values return the same result.
    The date in the document is the one read from the clock inside the
    call, and the content map is fetched inside the call from the model's
    reply. *)
Theorem same_clock_and_reply_same_document
    (json_loads : string -> result (gmap string string)) (w1 w2 : World)
    (jira_text project_name version prepared_by : string) (doc : Document)
    (Hdate : date_today_isoformat w1 = date_today_isoformat w2)
    (Hreply : responses_create w1 jira_text = responses_create w2 jira_text)
    (Hpng : create_architecture_diagram_png w1 = create_architecture_diagram_png w2)
    (Hdoc : generate_design_doc_bytes json_loads w1 jira_text project_name version
              prepared_by = Ok doc) :
  generate_design_doc_bytes json_loads w2 jira_text project_name version prepared_by
  = Ok doc
  /\ doc !! 3%nat = Some (Paragraph ("Date: " +:+ date_today_isoformat w1))
  /\ exists raw_text sections,
       responses_create w1 jira_text = Ok raw_text
       /\ json_loads (extract_json_from_text raw_text) = Ok sections
       /\ doc = build_document SECTIONS project_name version
                  (date_today_isoformat w1) prepared_by sections
                  (create_architecture_diagram_png w1).
Proof.
  unfold generate_design_doc_bytes, generate_all_sections in *.
  rewrite <- Hdate, <- Hreply, <- Hpng.
  split; [exact Hdoc|].
  destruct (responses_create w1 jira_text) as [raw_text|e]; [|discriminate].
  cbn [bind] in Hdoc.
  destruct (falsy (extract_json_from_text raw_text)); [discriminate|].
  destruct (json_loads (extract_json_from_text raw_text)) as [sections|e] eqn:Hj;
    [|discriminate].
  cbn [bind] in Hdoc. inversion Hdoc as [Hd].
  split; [rewrite build_document_eq; reflexivity|].
  exists raw_text, sections.
  split; [reflexivity|]. split; [exact Hj|reflexivity].
Qed.

Lemma same_clock_and_reply_same_document_witness :
  generate_design_doc_bytes Scenario.loads_empty Scenario.monday "story" "P" "1" "me"
  = Ok (build_document SECTIONS "P" "1" "2024-01-01" "me" ∅ []).
Proof.
  apply (same_clock_and_reply_same_document Scenario.loads_empty
           Scenario.monday Scenario.monday "story" "P" "1" "me"
           (build_document SECTIONS "P" "1" "2024-01-01" "me" ∅ [])
           eq_refl eq_refl eq_refl).
  vm_compute. reflexivity.
Defined.

(** C9. [extract_json_from_text] returns the span from the first '{'
    through the last '}' when the last '}' is behind the first '{'; it
    returns the empty string for the empty text, for a text without '{',
    for a text without '}', and when the last '}' is in front of the
    first '{'; every text is in one of these cases. When the extraction of the model's reply is empty,
    [generate_all_sections] raises the ValueError and so does
    [generate_design_doc_bytes]: no document is built. *)
Theorem extract_json_span_or_empty
    (json_loads : string -> result (gmap string string)) (w : World)
    (jira_text raw_text text pre mid post project_name version prepared_by : string) :
  (Py.count "{"%char pre = 0 -> Py.count "}"%char post = 0 ->
   extract_json_from_text (pre +:+ "{" +:+ mid +:+ "}" +:+ post)
   = "{" +:+ mid +:+ "}")
  /\ extract_json_from_text "" = ""
  /\ (Py.count "{"%char text = 0 \/ Py.count "}"%char text = 0 ->
      extract_json_from_text text = "")
  /\ (extract_json_from_text text = ""
      \/ exists pre' mid' post',
           text = pre' +:+ "{" +:+ mid' +:+ "}" +:+ post'
           /\ Py.count "{"%char pre' = 0 /\ Py.count "}"%char post' = 0
           /\ extract_json_from_text text = "{" +:+ mid' +:+ "}")
  /\ (Py.count "{"%char (pre +:+ "}" +:+ mid) = 0 ->
      Py.count "}"%char (mid +:+ "{" +:+ post) = 0 ->
      extract_json_from_text (pre +:+ "}" +:+ mid +:+ "{" +:+ post) = "")
  /\ (responses_create w jira_text = Ok raw_text ->
      extract_json_from_text raw_text = "" ->
      generate_all_sections json_loads w jira_text
      = Raise (ValueError
          "Model did not return valid JSON. Try reducing input text or try again.")
      /\ generate_design_doc_bytes json_loads w jira_text project_name version
           prepared_by
         = Raise (ValueError
             "Model did not return valid JSON. Try reducing input text or try again.")).
Proof.
  split; [apply extract_span|].
  split; [reflexivity|].
  split; [intros [H|H]; [apply extract_no_open|apply extract_no_close]; exact H|].
  split; [apply extract_empty_or_span|].
  split; [apply extract_reversed|].
  intros Hr He.
  pose proof (empty_extraction_raises json_loads w jira_text raw_text Hr He) as H.
  split; [exact H|].
  unfold generate_design_doc_bytes. rewrite H. reflexivity.
Qed.

Lemma extract_json_span_or_empty_witness :
  extract_json_from_text ("Here you go: " +:+ "{" +:+ "a {b} c" +:+ "}" +:+ " bye")
  = "{" +:+ "a {b} c" +:+ "}"
  /\ extract_json_from_text "no braces" = ""
  /\ extract_json_from_text ("a " +:+ "}" +:+ " b " +:+ "{" +:+ " c") = ""
  /\ generate_design_doc_bytes Scenario.loads_empty Scenario.chatty "story" "P" "1" "me"
     = Raise (ValueError
         "Model did not return valid JSON. Try reducing input text or try again.").
Proof.
  destruct (extract_json_span_or_empty Scenario.loads_empty Scenario.chatty
              "story" "Sorry, I cannot help with that." "no braces"
              "Here you go: " "a {b} c" " bye" "P" "1" "me")
    as (Hspan & _ & Hnone & _ & _ & Hraise).
  destruct (extract_json_span_or_empty Scenario.loads_empty Scenario.chatty
              "story" "Sorry, I cannot help with that." "no braces"
              "a " " b " " c" "P" "1" "me")
    as (_ & _ & _ & _ & Hrev & _).
  split; [apply Hspan; reflexivity|].
  split; [apply Hnone; left; reflexivity|].
  split; [apply Hrev; reflexivity|].
  apply Hraise; reflexivity.
Defined.

(** C10. A body that is not empty but holds only whitespace passes the
    emptiness test, and the loop over its chunks appends nothing: the
    section is its heading (and, for the diagram title, the diagram
    blocks) without any body paragraph. *)
Theorem whitespace_body_no_paragraphs (sections : gmap string string)
    (png_bytes : list Byte.byte) (doc : Document) (section_title body : string)
    (Hbody : sections !! section_title = Some body)
    (Hnonempty : body <> "") (Hspace : Py.all_space body = true) :
  Py.falsy body = false
  /\ fold_left add_body_paragraph (Py.split Py.NLNL body) doc = doc
  /\ body_paragraphs body = []
  /\ render_section sections png_bytes doc section_title
     = doc ++ Heading (heading_level section_title) section_title
           :: diagram_blocks png_bytes section_title.
Proof.
  pose proof (spec_paragraphs_all_space body Hspace) as Hp.
  split; [apply falsy_false; exact Hnonempty|].
  split; [|split].
  - rewrite body_loop_eq. fold (spec_paragraphs body). rewrite Hp. apply app_nil_r.
  - rewrite body_paragraphs_eq, Hp. reflexivity.
  - rewrite render_section_eq. unfold section_blocks.
    rewrite (section_body_lookup _ _ _ Hbody), Hp. simpl. rewrite app_nil_r.
    reflexivity.
Qed.

Lemma whitespace_body_no_paragraphs_witness :
  let body := String " "%char (String Py.NL (String Py.NL (String "009"%char ""))) in
  body <> "" /\ Py.all_space body = true /\ body_paragraphs body = [].
Proof.
  intros body.
  assert (H1 : ({[ "1. Overview" := body ]} : gmap string string) !! "1. Overview"
               = Some body) by (vm_compute; reflexivity).
  assert (H2 : body <> "") by discriminate.
  assert (H3 : Py.all_space body = true) by reflexivity.
  split; [exact H2|]. split; [exact H3|].
  apply (whitespace_body_no_paragraphs {[ "1. Overview" := body ]} [] []
           "1. Overview" body H1 H2 H3).
Defined.

(* ===================================================================== *)
(** ** Further facts about the strings *)
(* ===================================================================== *)

Module MoreFacts.
Import Py PyFacts FindFacts.

Lemma replace_app (old : ascii) (new a b : string) :
  replace old new (a +:+ b) = replace old new a +:+ replace old new b.
Proof.
  induction a as [|x a IH]; [reflexivity|].
  rewrite sapp_cons. cbn [replace]. rewrite IH.
  destruct (Ascii.eqb x old); [rewrite sapp_assoc|]; reflexivity.
Qed.

Lemma html_escape_app (a b : string) :
  html_escape (a +:+ b) = html_escape a +:+ html_escape b.
Proof. unfold html_escape. rewrite !replace_app. reflexivity. Qed.

Lemma html_escape_one (c : ascii) : html_escape (String c "") = escape_char c.
Proof. destruct c as [[] [] [] [] [] [] [] []]; vm_compute; reflexivity. Qed.

Lemma html_escape_cons (c : ascii) (s : string) :
  html_escape (String c s) = escape_char c +:+ html_escape s.
Proof.
  change (String c s) with (String c "" +:+ s).
  rewrite html_escape_app, html_escape_one. reflexivity.
Qed.

(** No markup character survives the escape of one character. *)
Lemma escape_char_safe (x c : ascii) :
  x = "<"%char \/ x = ">"%char \/ x = DQUOTE \/ x = SQUOTE ->
  count x (escape_char c) = 0.
Proof.
  intros Hx. unfold escape_char.
  destruct (Ascii.eqb_spec c AMP) as [->|_];
    [destruct Hx as [->|[->|[->| ->]]]; reflexivity|].
  destruct (Ascii.eqb_spec c "<"%char) as [->|N1];
    [destruct Hx as [->|[->|[->| ->]]]; reflexivity|].
  destruct (Ascii.eqb_spec c ">"%char) as [->|N2];
    [destruct Hx as [->|[->|[->| ->]]]; reflexivity|].
  destruct (Ascii.eqb_spec c DQUOTE) as [->|N3];
    [destruct Hx as [->|[->|[->| ->]]]; reflexivity|].
  destruct (Ascii.eqb_spec c SQUOTE) as [->|N4];
    [destruct Hx as [->|[->|[->| ->]]]; reflexivity|].
  cbn [count].
  destruct (Ascii.eqb_spec c x) as [->|_]; [|reflexivity].
  destruct Hx as [->|[->|[->| ->]]]; congruence.
Qed.

Lemma html_escape_safe (x : ascii) (s : string) :
  x = "<"%char \/ x = ">"%char \/ x = DQUOTE \/ x = SQUOTE ->
  count x (html_escape s) = 0.
Proof.
  intros Hx. induction s as [|c s IH]; [reflexivity|].
  rewrite html_escape_cons, count_app, IH, (escape_char_safe x c Hx). reflexivity.
Qed.

(** A text without any of the five characters is left as it is. *)
Lemma html_escape_plain (s : string) :
  count AMP s = 0 -> count "<"%char s = 0 -> count ">"%char s = 0 ->
  count DQUOTE s = 0 -> count SQUOTE s = 0 ->
  html_escape s = s.
Proof.
  induction s as [|c s IH]; [reflexivity|].
  intros H1 H2 H3 H4 H5.
  apply count_cons_zero in H1 as [E1 H1]. apply count_cons_zero in H2 as [E2 H2].
  apply count_cons_zero in H3 as [E3 H3]. apply count_cons_zero in H4 as [E4 H4].
  apply count_cons_zero in H5 as [E5 H5].
  rewrite html_escape_cons, (IH H1 H2 H3 H4 H5).
  unfold escape_char. rewrite E1, E2, E3, E4, E5. reflexivity.
Qed.


Lemma lower_app (a b : string) : lower (a +:+ b) = lower a +:+ lower b.
Proof.
  induction a as [|x a IH]; [reflexivity|].
  rewrite sapp_cons. cbn [lower]. rewrite IH. reflexivity.
Qed.

Lemma endswith_refl (s : string) : endswith s s = true.
Proof. destruct s; cbn [endswith]; rewrite String.eqb_refl; reflexivity. Qed.

Lemma endswith_app (a b : string) : endswith (a +:+ b) b = true.
Proof.
  induction a as [|x a IH]; [rewrite sapp_nil_l; apply endswith_refl|].
  rewrite sapp_cons. cbn [endswith]. rewrite IH. apply orb_true_r.
Qed.

Lemma without_space_app (a b : string) :
  without_space (a +:+ b) = without_space a +:+ without_space b.
Proof.
  induction a as [|x a IH]; [reflexivity|].
  rewrite sapp_cons. cbn [without_space]. rewrite IH.
  destruct (isspace x); reflexivity.
Qed.

Lemma without_space_all_space (s : string) :
  all_space s = true -> without_space s = "".
Proof.
  induction s as [|x s IH]; [reflexivity|].
  cbn [all_space without_space]. intros H.
  apply andb_true_iff in H as [-> H]. auto.
Qed.

Lemma without_space_strip (s : string) :
  without_space (strip s) = without_space s.
Proof.
  destruct (strip_decompose s) as (l & r & E & Hl & Hr).
  rewrite E at 2.
  rewrite !without_space_app, (without_space_all_space l Hl),
    (without_space_all_space r Hr), sapp_nil_l, sapp_nil_r.
  reflexivity.
Qed.

Lemma without_space_join (sep : string) (l : list string) :
  all_space sep = true ->
  without_space (join sep l) = concat (map without_space l).
Proof.
  intros Hsep. induction l as [|x l IH]; [reflexivity|].
  destruct l as [|y l].
  - simpl. rewrite sapp_nil_r. reflexivity.
  - change (join sep (x :: y :: l)) with (x +:+ sep +:+ join sep (y :: l)).
    rewrite !without_space_app, (without_space_all_space sep Hsep), sapp_nil_l, IH.
    reflexivity.
Qed.

(** Dropping the chunks that strip to nothing, and stripping the
    others, loses no character that is not whitespace. *)
Lemma without_space_kept (chunks : list string) :
  concat (map without_space
            (List.filter (fun c => negb (falsy c)) (map strip chunks)))
  = concat (map without_space chunks).
Proof.
  induction chunks as [|c chunks IH]; [reflexivity|].
  cbn [map List.filter]. destruct (falsy (strip c)) eqn:F; cbn [negb].
  - apply falsy_true in F. cbn [concat].
    rewrite <- (without_space_strip c), F, IH. reflexivity.
  - cbn [map concat]. rewrite IH, without_space_strip. reflexivity.
Qed.

End MoreFacts.

(* ===================================================================== *)
(** ** Further properties of [design_doc_logic.py] *)
(* ===================================================================== *)

Import MoreFacts.

(** X1. Extracting from an extracted text changes nothing, and what is
    extracted is either empty or starts with '{' and ends with '}'. *)
Theorem extract_json_idempotent (text : string) :
  extract_json_from_text (extract_json_from_text text) = extract_json_from_text text
  /\ (extract_json_from_text text = ""
      \/ exists mid, extract_json_from_text text = "{" +:+ mid +:+ "}").
Proof.
  destruct (extract_empty_or_span text) as [E|(pre & mid & post & _ & _ & _ & E)];
    rewrite E.
  - split; [reflexivity|left; reflexivity].
  - split; [|right; exists mid; reflexivity].
    exact (extract_span "" mid "" eq_refl eq_refl).
Qed.

(** X2. [generate_all_sections] hands [json.loads] nothing but a text
    that starts with '{' and ends with '}': two parsers that agree on
    all such texts give the same result for every reply of the model. *)
Theorem json_loads_sees_braced_text_only
    (loads1 loads2 : string -> result (gmap string string))
    (w : World) (jira_text : string)
    (Hagree : forall mid, loads1 ("{" +:+ mid +:+ "}") = loads2 ("{" +:+ mid +:+ "}")) :
  generate_all_sections loads1 w jira_text = generate_all_sections loads2 w jira_text.
Proof.
  unfold generate_all_sections.
  destruct (responses_create w jira_text) as [raw_text|e]; [|reflexivity].
  cbn [bind].
  destruct (extract_empty_or_span raw_text)
    as [E|(pre & mid & post & _ & _ & _ & E)]; rewrite E.
  - reflexivity.
  - destruct (falsy ("{" +:+ mid +:+ "}")); [reflexivity|apply Hagree].
Qed.

Lemma json_loads_sees_braced_text_only_witness :
  generate_all_sections Scenario.loads_empty Scenario.monday "story"
  = generate_all_sections
      (fun s => if falsy s then Raise JSONDecodeError else Ok ∅)
      Scenario.monday "story".
Proof.
  apply (json_loads_sees_braced_text_only Scenario.loads_empty
           (fun s => if falsy s then Raise JSONDecodeError else Ok ∅)
           Scenario.monday "story").
  intros mid. reflexivity.
Defined.

(** X3. Every document [generate_design_doc_bytes] returns, whatever
    the model replied, has the title and the 24 catalog titles as its
    headings, in catalog order, exactly one page break and exactly one
    picture. *)
Theorem generated_document_shape
    (json_loads : string -> result (gmap string string)) (w : World)
    (jira_text project_name version prepared_by : string) (doc : Document)
    (Hdoc : generate_design_doc_bytes json_loads w jira_text project_name version
              prepared_by = Ok doc) :
  map snd (headings doc) = "Solution Design Document" :: SECTIONS
  /\ length (headings doc) = 25%nat
  /\ count_page_breaks doc = 1%nat
  /\ count_pictures doc = 1%nat.
Proof.
  unfold generate_design_doc_bytes in Hdoc.
  destruct (generate_all_sections json_loads w jira_text) as [sections|e];
    [|discriminate].
  cbn [bind] in Hdoc. inversion Hdoc as [Hd]. clear Hdoc Hd.
  rewrite build_document_eq.
  rewrite !headings_app, !count_page_breaks_app, !count_pictures_app.
  rewrite headings_sections, count_page_breaks_sections, count_pictures_sections.
  split; [|split; [|split]].
  - reflexivity.
  - reflexivity.
  - reflexivity.
  - reflexivity.
Qed.

Lemma generated_document_shape_witness :
  count_pictures (build_document SECTIONS "P" "1" "2024-01-01" "me" ∅ []) = 1%nat.
Proof.
  apply (generated_document_shape Scenario.loads_empty Scenario.monday
           "story" "P" "1" "me").
  vm_compute. reflexivity.
Defined.

(** X4. For any catalog, the document holds as many pictures as the
    catalog holds occurrences of the diagram title: none when the title
    is absent, one per occurrence when it is repeated. *)
Theorem pictures_follow_catalog (catalog : list string)
    (project_name version today prepared_by : string)
    (sections : gmap string string) (png_bytes : list Byte.byte) :
  count_pictures
    (build_document catalog project_name version today prepared_by sections png_bytes)
  = length (List.filter (fun t => String.eqb t DIAGRAM_SECTION) catalog).
Proof.
  rewrite build_document_eq, !count_pictures_app, count_pictures_sections.
  reflexivity.
Qed.

(** X5. Every body paragraph the loop appends is non-empty, has no
    whitespace at either end and holds no blank-line boundary; outside
    the diagram section no paragraph of a section is empty. *)
Theorem body_paragraphs_are_clean (sections : gmap string string)
    (png_bytes : list Byte.byte) (section_title body : string)
    (Hother : section_title <> DIAGRAM_SECTION) :
  Forall Py.clean (paragraph_texts (body_paragraphs body))
  /\ Forall Py.clean
       (paragraph_texts (render_section sections png_bytes [] section_title)).
Proof.
  split.
  - rewrite body_paragraphs_eq, paragraph_texts_paragraphs.
    apply spec_paragraphs_clean.
  - rewrite render_section_eq. unfold section_blocks, diagram_blocks.
    replace (String.eqb section_title DIAGRAM_SECTION) with false
      by (symmetry; apply String.eqb_neq; exact Hother).
    cbn [app paragraph_texts]. rewrite paragraph_texts_paragraphs.
    unfold section_body. destruct (falsy (default "" (sections !! section_title))).
    + constructor.
    + apply spec_paragraphs_clean.
Qed.

Lemma body_paragraphs_are_clean_witness :
  "1. Overview" <> DIAGRAM_SECTION
  /\ Forall Py.clean
       (paragraph_texts (render_section Scenario.content_A [] [] "1. Overview")).
Proof.
  split; [discriminate|].
  apply (body_paragraphs_are_clean Scenario.content_A [] "1. Overview" "x").
  discriminate.
Defined.

(** X6. Splitting, stripping and dropping empty chunks loses nothing
    but whitespace: the non-whitespace characters of the emitted
    paragraphs, read in order, are those of the body. *)
Theorem body_text_is_preserved (body : string) :
  Py.concat (map Py.without_space (paragraph_texts (body_paragraphs body)))
  = Py.without_space body.
Proof.
  rewrite body_paragraphs_eq, paragraph_texts_paragraphs.
  unfold spec_paragraphs. rewrite without_space_kept.
  rewrite <- (without_space_join NLNL) by reflexivity.
  rewrite join_split. reflexivity.
Qed.

(** X7. The text [generate_section_text] returns has no whitespace at
    either end, and stripping it again changes nothing; a failing model
    call fails the function with the same exception. *)
Theorem section_text_is_stripped (section_reply : string -> string -> result string)
    (jira_text section_title : string) :
  match generate_section_text section_reply jira_text section_title with
  | Ok text =>
      Py.lstrip text = text /\ Py.rstrip text = text /\ Py.strip text = text
      /\ exists reply, section_reply jira_text section_title = Ok reply
                       /\ Py.without_space text = Py.without_space reply
  | Raise e => section_reply jira_text section_title = Raise e
  end.
Proof.
  unfold generate_section_text.
  destruct (section_reply jira_text section_title) as [reply|e]; cbn [bind];
    [|reflexivity].
  destruct (strip_trimmed reply) as [Hl Hr].
  split; [exact Hl|]. split; [exact Hr|]. split; [apply strip_strip|].
  exists reply. split; [reflexivity|apply without_space_strip].
Qed.

(* ===================================================================== *)
(** ** Properties of the request handler of [main.py] *)
(* ===================================================================== *)

Lemma length_sapp (a b : string) :
  String.length (a +:+ b) = (String.length a + String.length b)%nat.
Proof.
  induction a as [|x a IH]; [reflexivity|].
  rewrite sapp_cons. simpl. rewrite IH. reflexivity.
Qed.

(** A name that ends in ".docx" does not end in ".txt". *)
Lemma docx_is_not_txt (a : string) : endswith (a +:+ ".docx") ".txt" = false.
Proof.
  induction a as [|x a IH]; [reflexivity|].
  rewrite sapp_cons. cbn [endswith]. rewrite IH, orb_false_r.
  apply String.eqb_neq. intros H.
  apply (f_equal String.length) in H. simpl in H.
  rewrite length_sapp in H. simpl in H. lia.
Qed.

(** X8. Whatever is submitted and whatever the error message is, no
    value the form page echoes and no alert it shows holds a '<', a '>',
    a double quote or a single quote. *)
Theorem form_page_is_escaped
    (jira_text project_name version prepared_by input_mode : string)
    (error_message : option string) (x : ascii)
    (Hx : x = "<"%char \/ x = ">"%char \/ x = Py.DQUOTE \/ x = Py.SQUOTE) :
  let page :=
    render_form_page jira_text project_name version prepared_by input_mode
      error_message in
  Py.count x (jira_text_value page) = 0
  /\ Py.count x (project_name_value page) = 0
  /\ Py.count x (version_value page) = 0
  /\ Py.count x (prepared_by_value page) = 0
  /\ Py.count x (default "" (error_html page)) = 0.
Proof.
  cbn [render_form_page jira_text_value project_name_value version_value
         prepared_by_value error_html].
  repeat split; try (apply html_escape_safe; exact Hx).
  destruct error_message as [m|]; [|reflexivity].
  destruct (falsy m); [reflexivity|].
  apply html_escape_safe; exact Hx.
Qed.

Lemma form_page_is_escaped_witness :
  Py.count "<"%char
    (jira_text_value
       (render_form_page "<script>alert(1)</script>" "P" "1" "me" "text" None)) = 0.
Proof.
  apply (form_page_is_escaped "<script>alert(1)</script>" "P" "1" "me" "text" None
           "<"%char).
  left; reflexivity.
Defined.

(** X9. In text mode a text area that is empty or holds only whitespace
    is rejected before anything is generated: for every world the
    answer is the form page with the submitted values as they were (the
    project name is not replaced by its default) and the "Please enter
    Jira stories" alert, shown with its apostrophes escaped. *)
Theorem blank_text_is_rejected
    (json_loads : string -> result (gmap string string)) (exn_text : exn -> string)
    (decode_utf8_ignore : list Byte.byte -> string)
    (docx_paragraphs : list Byte.byte -> list string + PyException)
    (w : World) (jira_text project_name version prepared_by input_mode : string)
    (upload_file : option UploadFile)
    (Hmode : input_mode <> "file") (Hblank : Py.all_space jira_text = true) :
  generate_design_doc json_loads exn_text decode_utf8_ignore docx_paragraphs w
    jira_text project_name version prepared_by input_mode upload_file
  = HTMLPage
      (render_form_page jira_text project_name version prepared_by input_mode
         (Some "Please enter Jira stories when 'Text area' is selected."))
  /\ error_html
       (render_form_page jira_text project_name version prepared_by input_mode
          (Some "Please enter Jira stories when 'Text area' is selected."))
     = Some "Please enter Jira stories when &#x27;Text area&#x27; is selected.".
Proof.
  split; [|reflexivity].
  unfold generate_design_doc, read_jira_stories.
  replace (String.eqb input_mode "file") with false
    by (symmetry; apply String.eqb_neq; exact Hmode).
  rewrite (strip_all_space jira_text Hblank). reflexivity.
Qed.

Lemma blank_text_is_rejected_witness :
  generate_design_doc Scenario.loads_empty Scenario.exn_text Scenario.decode_ascii
    Scenario.no_docx Scenario.monday "   " "" "1.0" "" "text" None
  = HTMLPage
      (render_form_page "   " "" "1.0" "" "text"
         (Some "Please enter Jira stories when 'Text area' is selected.")).
Proof.
  apply (blank_text_is_rejected Scenario.loads_empty Scenario.exn_text
           Scenario.decode_ascii Scenario.no_docx Scenario.monday
           "   " "" "1.0" "" "text" None).
  - discriminate.
  - reflexivity.
Defined.

(** X10. In file mode a request without an upload, or with an upload
    whose name is empty, gets the "Please upload" alert; an upload whose
    lower-cased name ends neither in ".txt" nor in ".docx" gets the
    "Only .txt and .docx files are supported." alert. Nothing is
    generated in either case. *)
Theorem bad_upload_is_rejected
    (json_loads : string -> result (gmap string string)) (exn_text : exn -> string)
    (decode_utf8_ignore : list Byte.byte -> string)
    (docx_paragraphs : list Byte.byte -> list string + PyException)
    (w : World) (jira_text project_name version prepared_by : string)
    (bytes : list Byte.byte) (f : UploadFile)
    (Hname : filename f <> "")
    (Htxt : Py.endswith (Py.lower (filename f)) ".txt" = false)
    (Hdocx : Py.endswith (Py.lower (filename f)) ".docx" = false) :
  generate_design_doc json_loads exn_text decode_utf8_ignore docx_paragraphs w
    jira_text project_name version prepared_by "file" None
  = HTMLPage
      (render_form_page jira_text project_name version prepared_by "file"
         (Some "Please upload a .txt or .docx file when 'Attachment' is selected."))
  /\ generate_design_doc json_loads exn_text decode_utf8_ignore docx_paragraphs w
       jira_text project_name version prepared_by "file"
       (Some {| filename := ""; file_bytes := bytes |})
     = HTMLPage
         (render_form_page jira_text project_name version prepared_by "file"
            (Some "Please upload a .txt or .docx file when 'Attachment' is selected."))
  /\ generate_design_doc json_loads exn_text decode_utf8_ignore docx_paragraphs w
       jira_text project_name version prepared_by "file" (Some f)
     = HTMLPage
         (render_form_page jira_text project_name version prepared_by "file"
            (Some "Only .txt and .docx files are supported.")).
Proof.
  split; [reflexivity|]. split; [reflexivity|].
  unfold generate_design_doc, read_jira_stories. cbn [String.eqb Ascii.eqb].
  replace (String.eqb (filename f) "") with false
    by (symmetry; apply String.eqb_neq; exact Hname).
  cbv zeta. rewrite Htxt, Hdocx. reflexivity.
Qed.

Lemma bad_upload_is_rejected_witness :
  generate_design_doc Scenario.loads_empty Scenario.exn_text Scenario.decode_ascii
    Scenario.no_docx Scenario.monday "" "P" "1.0" "me" "file"
    (Some {| filename := "stories.pdf"; file_bytes := [] |})
  = HTMLPage
      (render_form_page "" "P" "1.0" "me" "file"
         (Some "Only .txt and .docx files are supported.")).
Proof.
  apply (bad_upload_is_rejected Scenario.loads_empty Scenario.exn_text
           Scenario.decode_ascii Scenario.no_docx Scenario.monday "" "P" "1.0" "me"
           [] {| filename := "stories.pdf"; file_bytes := [] |}).
  - discriminate.
  - reflexivity.
  - reflexivity.
Defined.

(** X11. The extension of an upload is matched without regard to
    case. A ".txt" upload is decoded and used as it is: it is not
    stripped, an empty file is not rejected, and the text area is
    ignored. A ".docx" upload gives its paragraph texts joined by
    newlines, or the exception python-docx raised. *)
Theorem upload_is_read_by_extension
    (decode_utf8_ignore : list Byte.byte -> string)
    (docx_paragraphs : list Byte.byte -> list string + PyException)
    (jira_text stem ext : string) (bytes : list Byte.byte) :
  (Py.lower ext = ".txt" ->
   read_jira_stories decode_utf8_ignore docx_paragraphs jira_text "file"
     (Some {| filename := stem +:+ ext; file_bytes := bytes |})
   = inl (decode_utf8_ignore bytes))
  /\ (Py.lower ext = ".docx" ->
      read_jira_stories decode_utf8_ignore docx_paragraphs jira_text "file"
        (Some {| filename := stem +:+ ext; file_bytes := bytes |})
      = match docx_paragraphs bytes with
        | inl texts => inl (Py.join (String Py.NL "") texts)
        | inr e => inr e
        end).
Proof.
  assert (Hne : forall e, Py.lower ext = e -> e <> "" ->
                  String.eqb (stem +:+ ext) "" = false).
  { intros e He Hn. apply String.eqb_neq. intros H.
    destruct stem; [|discriminate H]. rewrite sapp_nil_l in H. subst ext.
    apply Hn. symmetry. exact He. }
  split; intros Hext; unfold read_jira_stories;
    cbn [String.eqb Ascii.eqb filename file_bytes]; cbv zeta;
    rewrite (Hne _ Hext ltac:(discriminate)), lower_app, Hext.
  - rewrite endswith_app. reflexivity.
  - rewrite docx_is_not_txt, endswith_app. reflexivity.
Qed.

Lemma upload_is_read_by_extension_witness :
  read_jira_stories Scenario.decode_ascii Scenario.no_docx "typed text" "file"
    (Some {| filename := "Notes" +:+ ".TXT"; file_bytes := [] |})
  = inl ""
  /\ read_jira_stories Scenario.decode_ascii Scenario.no_docx "typed text" "file"
       (Some {| filename := "Spec" +:+ ".DocX"; file_bytes := [] |})
     = inr {| is_value_error := false; message := "File is not a zip file" |}.
Proof.
  split.
  - apply (upload_is_read_by_extension Scenario.decode_ascii Scenario.no_docx
             "typed text" "Notes" ".TXT" []).
    reflexivity.
  - apply (upload_is_read_by_extension Scenario.decode_ascii Scenario.no_docx
             "typed text" "Spec" ".DocX" []).
    reflexivity.
Defined.




(** X13. When the model's reply holds no '{' or no '}', the request
    ends on the form page with the alert "Model did not return valid
    JSON. Try reducing input text or try again.", shown as it is. The
    page echoes the text area and the version as submitted, but a blank
    project name or author comes back as its default, because the
    defaults were assigned before the generator failed. *)
Theorem reply_without_json_shows_form
    (json_loads : string -> result (gmap string string)) (exn_text : exn -> string)
    (decode_utf8_ignore : list Byte.byte -> string)
    (docx_paragraphs : list Byte.byte -> list string + PyException)
    (w : World) (jira_text project_name version prepared_by input_mode : string)
    (upload_file : option UploadFile) (raw_text reply : string)
    (Hread : read_jira_stories decode_utf8_ignore docx_paragraphs jira_text input_mode
               upload_file = inl raw_text)
    (Hreply : responses_create w raw_text = Ok reply)
    (Hbraces : Py.count "{"%char reply = 0 \/ Py.count "}"%char reply = 0) :
  let page :=
    render_form_page jira_text
      (if Py.falsy (Py.strip project_name) then "PROJECT" else project_name)
      version
      (if Py.falsy (Py.strip prepared_by) then "Automation Factory" else prepared_by)
      input_mode
      (Some "Model did not return valid JSON. Try reducing input text or try again.")
  in
  generate_design_doc json_loads exn_text decode_utf8_ignore docx_paragraphs w
    jira_text project_name version prepared_by input_mode upload_file
  = HTMLPage page
  /\ error_html page
     = Some "Model did not return valid JSON. Try reducing input text or try again."
  /\ jira_text_value page = Py.html_escape jira_text
  /\ version_value page = Py.html_escape version.
Proof.
  intros page. split; [|repeat split].
  assert (He : extract_json_from_text reply = "")
    by (destruct Hbraces as [H|H];
        [apply extract_no_open|apply extract_no_close]; exact H).
  unfold generate_design_doc. rewrite Hread. cbv zeta.
  unfold generate_design_doc_bytes.
  rewrite (empty_extraction_raises json_loads w raw_text reply Hreply He).
  reflexivity.
Qed.

Lemma reply_without_json_shows_form_witness :
  generate_design_doc Scenario.loads_empty Scenario.exn_text Scenario.decode_ascii
    Scenario.no_docx Scenario.chatty "stories" "" "" "" "text" None
  = HTMLPage
      (render_form_page "stories" "PROJECT" "" "Automation Factory" "text"
         (Some "Model did not return valid JSON. Try reducing input text or try again.")).
Proof.
  apply (reply_without_json_shows_form Scenario.loads_empty Scenario.exn_text
           Scenario.decode_ascii Scenario.no_docx Scenario.chatty
           "stories" "" "" "" "text" None "stories"
           "Sorry, I cannot help with that.").
  - reflexivity.
  - reflexivity.
  - left. reflexivity.
Defined.

(** X14. How a failure of the generator is worded. When the model call
    fails with an exception that is not a ValueError, the alert is
    "Something went wrong while generating the design document.
    Details: " followed by the text of the exception. When [json.loads]
    rejects the extracted text, its JSONDecodeError is a ValueError, so
    the alert is the text of the exception alone. *)
Theorem generator_failure_wording
    (json_loads : string -> result (gmap string string)) (exn_text : exn -> string)
    (decode_utf8_ignore : list Byte.byte -> string)
    (docx_paragraphs : list Byte.byte -> list string + PyException)
    (w : World) (jira_text project_name version prepared_by input_mode : string)
    (upload_file : option UploadFile) (raw_text reply : string)
    (Hread : read_jira_stories decode_utf8_ignore docx_paragraphs jira_text input_mode
               upload_file = inl raw_text) :
  let name := if Py.falsy (Py.strip project_name) then "PROJECT" else project_name in
  let author :=
    if Py.falsy (Py.strip prepared_by) then "Automation Factory" else prepared_by in
  (responses_create w raw_text = Raise APIError ->
   generate_design_doc json_loads exn_text decode_utf8_ignore docx_paragraphs w
     jira_text project_name version prepared_by input_mode upload_file
   = HTMLPage
       (render_form_page jira_text name version author input_mode
          (Some ("Something went wrong while generating the design document. Details: "
                 +:+ exn_text APIError))))
  /\ (responses_create w raw_text = Ok reply ->
      extract_json_from_text reply <> "" ->
      json_loads (extract_json_from_text reply) = Raise JSONDecodeError ->
      generate_design_doc json_loads exn_text decode_utf8_ignore docx_paragraphs w
        jira_text project_name version prepared_by input_mode upload_file
      = HTMLPage
          (render_form_page jira_text name version author input_mode
             (Some (exn_text JSONDecodeError)))).
Proof.
  intros name author. split.
  - intros Hcall. unfold generate_design_doc. rewrite Hread. cbv zeta.
    unfold generate_design_doc_bytes, generate_all_sections. rewrite Hcall.
    reflexivity.
  - intros Hreply Hspan Hloads. unfold generate_design_doc. rewrite Hread. cbv zeta.
    unfold generate_design_doc_bytes, generate_all_sections. rewrite Hreply.
    cbn [bind]. apply falsy_false in Hspan. rewrite Hspan, Hloads. reflexivity.
Qed.

Lemma generator_failure_wording_witness :
  generate_design_doc Scenario.loads_empty Scenario.exn_text Scenario.decode_ascii
    Scenario.no_docx Scenario.offline "stories" "P" "1.0" "me" "text" None
  = HTMLPage
      (render_form_page "stories" "P" "1.0" "me" "text"
         (Some "Something went wrong while generating the design document. Details: Connection error."))
  /\ generate_design_doc (fun _ => Raise JSONDecodeError) Scenario.exn_text
       Scenario.decode_ascii Scenario.no_docx Scenario.monday "stories" "P" "1.0" "me"
       "text" None
     = HTMLPage
         (render_form_page "stories" "P" "1.0" "me" "text" (Some "Expecting value")).
Proof.
  split.
  - apply (generator_failure_wording Scenario.loads_empty Scenario.exn_text
             Scenario.decode_ascii Scenario.no_docx Scenario.offline
             "stories" "P" "1.0" "me" "text" None "stories" "" eq_refl).
    reflexivity.
  - apply (generator_failure_wording (fun _ => Raise JSONDecodeError)
             Scenario.exn_text Scenario.decode_ascii Scenario.no_docx Scenario.monday
             "stories" "P" "1.0" "me" "text" None "stories" "{}" eq_refl).
    + reflexivity.
    + discriminate.
    + reflexivity.
Defined.

(** X15. An input mode that is neither "text" nor "file" is handled
    as text mode, yet every form page rendered for it has neither radio
    button checked and both input sections hidden. For no input mode
    are both sections shown or both buttons checked. *)
Theorem unknown_input_mode
    (decode_utf8_ignore : list Byte.byte -> string)
    (docx_paragraphs : list Byte.byte -> list string + PyException)
    (jira_text project_name version prepared_by input_mode any_mode : string)
    (upload_file : option UploadFile) (error_message : option string)
    (Hnot_text : input_mode <> "text") (Hnot_file : input_mode <> "file") :
  let page :=
    render_form_page jira_text project_name version prepared_by input_mode
      error_message in
  read_jira_stories decode_utf8_ignore docx_paragraphs jira_text input_mode upload_file
  = read_jira_stories decode_utf8_ignore docx_paragraphs jira_text "text" upload_file
  /\ text_checked page = "" /\ file_checked page = ""
  /\ text_display page = "none" /\ file_display page = "none"
  /\ ~ (text_display
          (render_form_page jira_text project_name version prepared_by any_mode
             error_message) = "flex"
        /\ file_display
             (render_form_page jira_text project_name version prepared_by any_mode
                error_message) = "flex").
Proof.
  assert (Et : String.eqb input_mode "text" = false)
    by (apply String.eqb_neq; exact Hnot_text).
  assert (Ef : String.eqb input_mode "file" = false)
    by (apply String.eqb_neq; exact Hnot_file).
  cbn [render_form_page text_checked file_checked text_display file_display].
  rewrite Et, Ef.
  split; [unfold read_jira_stories; rewrite Ef; reflexivity|].
  repeat split.
  intros [H1 H2].
  destruct (String.eqb_spec any_mode "text") as [->|_]; [|discriminate H1].
  discriminate H2.
Qed.

Lemma unknown_input_mode_witness :
  text_display (render_form_page "stories" "P" "1.0" "me" "TEXT" None) = "none".
Proof.
  apply (unknown_input_mode Scenario.decode_ascii Scenario.no_docx
           "stories" "P" "1.0" "me" "TEXT" "text" None None).
  - discriminate.
  - discriminate.
Defined.

Lemma all_space_app (a b : string) :
  all_space (a +:+ b) = all_space a && all_space b.
Proof.
  induction a as [|x a IH]; [reflexivity|].
  rewrite sapp_cons. cbn [all_space]. rewrite IH, andb_assoc. reflexivity.
Qed.

(** Only a string of whitespace strips to nothing. *)
Lemma strip_empty_all_space (s : string) : strip s = "" -> all_space s = true.
Proof.
  intros H. destruct (strip_decompose s) as (l & r & E & Hl & Hr).
  rewrite E, H, sapp_nil_l, all_space_app, Hl, Hr. reflexivity.
Qed.

(** X16. In text mode the text area is rejected exactly when it holds
    nothing but whitespace; otherwise the generator receives the text
    stripped at both ends, which is then not empty, and the upload is
    ignored. *)
Theorem text_mode_reads_stripped_text
    (decode_utf8_ignore : list Byte.byte -> string)
    (docx_paragraphs : list Byte.byte -> list string + PyException)
    (jira_text input_mode : string) (upload_file : option UploadFile)
    (Hmode : input_mode <> "file") :
  (Py.all_space jira_text = true ->
   read_jira_stories decode_utf8_ignore docx_paragraphs jira_text input_mode upload_file
   = inr (value_error "Please enter Jira stories when 'Text area' is selected."))
  /\ (Py.all_space jira_text = false ->
      read_jira_stories decode_utf8_ignore docx_paragraphs jira_text input_mode
        upload_file
      = inl (Py.strip jira_text)
      /\ Py.strip jira_text <> ""
      /\ Py.without_space (Py.strip jira_text) = Py.without_space jira_text).
Proof.
  assert (Ef : String.eqb input_mode "file" = false)
    by (apply String.eqb_neq; exact Hmode).
  unfold read_jira_stories. rewrite Ef. cbv zeta. split.
  - intros H. rewrite (strip_all_space jira_text H). reflexivity.
  - intros H.
    assert (Hne : strip jira_text <> "").
    { intros E. apply strip_empty_all_space in E. congruence. }
    apply falsy_false in Hne as Hf. rewrite Hf.
    split; [reflexivity|]. split; [exact Hne|apply without_space_strip].
Qed.

Lemma text_mode_reads_stripped_text_witness :
  read_jira_stories Scenario.decode_ascii Scenario.no_docx "  a story  " "text"
    (Some Scenario.notes_upload)
  = inl "a story"
  /\ read_jira_stories Scenario.decode_ascii Scenario.no_docx "   " "text" None
     = inr (value_error "Please enter Jira stories when 'Text area' is selected.").
Proof.
  split.
  - apply (text_mode_reads_stripped_text Scenario.decode_ascii Scenario.no_docx
             "  a story  " "text" (Some Scenario.notes_upload)).
    + discriminate.
    + reflexivity.
  - apply (text_mode_reads_stripped_text Scenario.decode_ascii Scenario.no_docx
             "   " "text" None).
    + discriminate.
    + reflexivity.
Defined.
